(** * USS-Assets: the geospatial classification core of [visual_tracker.py]

    The development embeds two methods of [VisualCarrierTracker]:
    - [calculate_direction_arrow] (lines 94-98), the 8-way compass quantizer;
    - [is_heading_to_strategic_region] (lines 100-126), the region classifier
      with its inlined great-circle bearing computation;
    and, around them, [get_vessel_position], the carrier loop of
    [create_carrier_map] and the report of [generate_map_report], with the
    network and the clock as inputs, and the keyword filter
    [check_middle_east_deployments] of [uss_tracker.py].

    Number model.  Python's [float] values are idealised as real numbers:
    [+], [-], [*], [/], [abs], [min] are the exact operations of [R], and
    [math.sin], [math.cos], [math.atan2], [math.radians], [math.degrees] are
    the mathematical functions.  Rounding and signed zeros are not modelled;
    the concrete evaluations below all hold with margins of several degrees.
    [int(x)] truncates toward zero, [%] is Python's floored remainder.
    A second embedding of the classifier, [heading_loop_m], adds the
    infinities and NaN, the [ValueError] of [math.sin] and [math.cos], and
    the receiver [self] as state; on finite values it agrees with the
    first. *)

From Stdlib Require Import Reals Machin Zfloor Lra Lia ZArith List String.
Import ListNotations.

Open Scope R_scope.

(** ** Python numeric primitives used by the two methods *)

Module Py.

(** [math.radians(x)] and [math.degrees(x)]. *)
Definition radians (x : R) : R := x * (PI / 180).
Definition degrees (x : R) : R := x * (180 / PI).

(** [math.atan2(y, x)]: the angle of the point [(x, y)], in (-pi, pi];
    [atan2(0, 0)] is [0]. *)
Definition atan2 (y x : R) : R :=
  match total_order_T x 0 with
  | inleft (left _) =>                       (* x < 0 *)
      if Rle_dec 0 y then atan (y / x) + PI else atan (y / x) - PI
  | inleft (right _) =>                      (* x = 0 *)
      match total_order_T y 0 with
      | inleft (left _) => - (PI / 2)
      | inleft (right _) => 0
      | inright _ => PI / 2
      end
  | inright _ => atan (y / x)                (* x > 0 *)
  end.

(** [a % m] on floats: the remainder takes the sign of the divisor,
    [a - m * floor(a / m)]. *)
Definition fmod (a m : R) : R := a - m * IZR (Zfloor (a / m)).

(** [int(x)] on a float: truncation toward zero. *)
Definition int (x : R) : Z :=
  if Rle_dec 0 x then Zfloor x else Zceil x.

(** [i % m] on ints (floored, sign of the divisor): [Z.modulo]. *)
Definition imod (i m : Z) : Z := (i mod m)%Z.

(** [l[i]]: negative indices count from the end, anything else out of
    range raises [IndexError] (here [None]). *)
Definition getitem {A : Type} (l : list A) (i : Z) : option A :=
  let n := Z.of_nat (List.length l) in
  if (0 <=? i)%Z then nth_error l (Z.to_nat i)
  else if (- n <=? i)%Z then nth_error l (Z.to_nat (n + i))
  else None.

End Py.

(** ** Data of the tracker object *)

Record Bounds : Type := mkBounds {
  north : R;
  south : R;
  east : R;
  west : R
}.

Record Region : Type := mkRegion {
  name : string;
  bounds : Bounds;
  color : string
}.

(** The attributes set by [__init__]; both dicts are kept as association
    lists in insertion order, which is the order [.items()] iterates in.
    (The [requests.Session] attribute takes no part in the two methods.) *)
Record VisualCarrierTracker : Type := mkTracker {
  api_key : string;
  carrier_mmsi : list (string * string);
  strategic_regions : list (string * Region)
}.

Definition default_api_key : string := "YOUR_MARINETRAFFIC_API_KEY".

Definition default_carrier_mmsi : list (string * string) :=
  [ ("USS Gerald R. Ford", "368123000");
    ("USS Nimitz", "368456000");
    ("USS Eisenhower", "368789000");
    ("USS Abraham Lincoln", "368234000");
    ("USS Carl Vinson", "368567000");
    ("USS Theodore Roosevelt", "368890000") ]%string.

Definition default_strategic_regions : list (string * Region) :=
  [ ("middle_east"%string,
     mkRegion "Middle East" (mkBounds 40 12 65 25) "red");
    ("indian_ocean"%string,
     mkRegion "Indian Ocean" (mkBounds 25 (-40) 100 40) "blue");
    ("east_asia"%string,
     mkRegion "East Asia/Western Pacific" (mkBounds 50 0 150 100) "green") ].

(** [__init__(self, api_key=None)]: [api_key or "YOUR_..."] replaces [None]
    and the empty string by the placeholder. *)
Definition init (key : option string) : VisualCarrierTracker :=
  mkTracker
    match key with
    | None => default_api_key
    | Some EmptyString => default_api_key
    | Some k => k
    end
    default_carrier_mmsi
    default_strategic_regions.

(** ** [calculate_direction_arrow] *)

(** The list literal of line 96, byte for byte. *)
Definition directions : list string :=
  [ "‚Üë"; "‚Üó"; "‚Üí"; "‚Üò"; "‚Üì"; "‚Üô"; "‚Üê"; "‚Üñ" ]%string.

(** [index = int((course + 22.5) / 45) % 8] *)
Definition direction_index (course : R) : Z :=
  Py.imod (Py.int ((course + 22.5) / 45)) 8.

(** [return directions[index]] *)
Definition calculate_direction_arrow (self : VisualCarrierTracker)
    (course : R) : option string :=
  Py.getitem directions (direction_index course).

(** ** [is_heading_to_strategic_region] *)

Definition other_operations : string := "Other Operations".

(** The body of the [for] loop over [self.strategic_regions.items()],
    with the early [return] and the fall-through after the last item. *)
Fixpoint heading_loop (items : list (string * Region))
    (lat lon course : R) : string :=
  match items with
  | [] => other_operations
  | (region_key, region) :: rest =>
      let bounds := bounds region in
      let center_lat := (north bounds + south bounds) / 2 in
      let center_lon := (east bounds + west bounds) / 2 in
      let lat1 := Py.radians lat in
      let lon1 := Py.radians lon in
      let lat2 := Py.radians center_lat in
      let lon2 := Py.radians center_lon in
      let dlon := lon2 - lon1 in
      let bearing :=
        Py.atan2 (sin dlon * cos lat2)
                 (cos lat1 * sin lat2 - sin lat1 * cos lat2 * cos dlon) in
      let bearing := Py.degrees bearing in
      let bearing := Py.fmod (bearing + 360) 360 in
      let diff := Rabs (course - bearing) in
      if Rle_dec (Rmin diff (360 - diff)) 45
      then name region
      else heading_loop rest lat lon course
  end.

Definition is_heading_to_strategic_region (self : VisualCarrierTracker)
    (lat lon course : R) : string :=
  heading_loop (strategic_regions self) lat lon course.

(** ** Vocabulary of the specification *)

Record GeoPoint : Type := mkPoint {
  latitude : R;
  longitude : R
}.

Record VesselState : Type := mkVessel {
  position : GeoPoint;
  course : R;
  speed : R
}.

Definition valid_point (p : GeoPoint) : Prop :=
  -90 <= latitude p <= 90 /\ -180 <= longitude p <= 180.

Definition valid_course (c : R) : Prop := 0 <= c < 360.

(** Lines 106-107: the center of a bounding box. *)
Definition region_center (b : Bounds) : GeoPoint :=
  mkPoint ((north b + south b) / 2) ((east b + west b) / 2).

(** Lines 110-119, the bearing computation of the loop body, as a function
    of the vessel position [from] and the target point [to]. *)
Definition initialBearing (from to : GeoPoint) : R :=
  let lat1 := Py.radians (latitude from) in
  let lon1 := Py.radians (longitude from) in
  let lat2 := Py.radians (latitude to) in
  let lon2 := Py.radians (longitude to) in
  let dlon := lon2 - lon1 in
  let bearing :=
    Py.atan2 (sin dlon * cos lat2)
             (cos lat1 * sin lat2 - sin lat1 * cos lat2 * cos dlon) in
  let bearing := Py.degrees bearing in
  Py.fmod (bearing + 360) 360.

(** The shorter way around the compass between a course and a bearing. *)
Definition circularDiff (course bearing : R) : R :=
  Rmin (Rabs (course - bearing)) (360 - Rabs (course - bearing)).

(** A region matches when the bearing to its center is within the
    tolerance of the vessel's course. *)
Definition heads_toward (v : VesselState) (tolerance : R) (r : Region) : Prop :=
  circularDiff (course v) (initialBearing (position v) (region_center (bounds r)))
  <= tolerance.

(** The classifier applied to a vessel state. *)
Definition classify (self : VisualCarrierTracker) (v : VesselState) : string :=
  is_heading_to_strategic_region self
    (latitude (position v)) (longitude (position v)) (course v).

(** ** The method with its exceptions and its receiver

    The second embedding of [is_heading_to_strategic_region] keeps what the
    first one leaves out: the float values that are not finite, the
    exception [math.sin] and [math.cos] raise on them, and the receiver
    [self] that every statement of a method can read and assign to.
    Finite values stay idealised as reals. *)

(** A Python float: a finite value, [float('inf')], [float('-inf')] or
    [float('nan')]. *)
Inductive PyFloat : Type :=
  | Fin (x : R)
  | PInf
  | NInf
  | NaN.

Definition infinite (x : PyFloat) : Prop := x = PInf \/ x = NInf.

(** [InvalidInput] is the error the specification asks for; [ValueError]
    is what the [math] module raises ("math domain error"). *)
Inductive PyError : Type :=
  | InvalidInput
  | ValueError.

(** Float arithmetic on these values, by the IEEE rules Python follows. *)
Module Fl.

(** [math.radians], [math.degrees]: a product with a positive constant. *)
Definition radians (x : PyFloat) : PyFloat :=
  match x with
  | Fin r => Fin (Py.radians r)
  | other => other
  end.

Definition degrees (x : PyFloat) : PyFloat :=
  match x with
  | Fin r => Fin (Py.degrees r)
  | other => other
  end.

Definition add (a b : PyFloat) : PyFloat :=
  match a, b with
  | NaN, _ | _, NaN => NaN
  | Fin x, Fin y => Fin (x + y)
  | PInf, NInf | NInf, PInf => NaN
  | PInf, _ | _, PInf => PInf
  | NInf, _ | _, NInf => NInf
  end.

Definition sub (a b : PyFloat) : PyFloat :=
  match a, b with
  | NaN, _ | _, NaN => NaN
  | Fin x, Fin y => Fin (x - y)
  | PInf, PInf | NInf, NInf => NaN
  | PInf, _ | _, NInf => PInf
  | NInf, _ | _, PInf => NInf
  end.

Definition mul (a b : PyFloat) : PyFloat :=
  match a, b with
  | NaN, _ | _, NaN => NaN
  | Fin x, Fin y => Fin (x * y)
  | Fin x, PInf | PInf, Fin x =>
      if Req_dec_T x 0 then NaN else if Rlt_dec x 0 then NInf else PInf
  | Fin x, NInf | NInf, Fin x =>
      if Req_dec_T x 0 then NaN else if Rlt_dec x 0 then PInf else NInf
  | PInf, PInf | NInf, NInf => PInf
  | PInf, NInf | NInf, PInf => NInf
  end.

Definition abs (a : PyFloat) : PyFloat :=
  match a with
  | Fin x => Fin (Rabs x)
  | PInf | NInf => PInf
  | NaN => NaN
  end.

(** [a % m] for a finite non-zero [m]: an infinite [a] gives NaN. *)
Definition fmod (a : PyFloat) (m : R) : PyFloat :=
  match a with
  | Fin x => Fin (Py.fmod x m)
  | _ => NaN
  end.

(** [a < b] and [a <= b]: false as soon as one side is NaN. *)
Definition lt (a b : PyFloat) : bool :=
  match a, b with
  | NaN, _ | _, NaN => false
  | Fin x, Fin y => if Rlt_dec x y then true else false
  | NInf, NInf | PInf, _ => false
  | NInf, _ | Fin _, PInf => true
  | Fin _, NInf => false
  end.

Definition le (a b : PyFloat) : bool :=
  match a, b with
  | NaN, _ | _, NaN => false
  | Fin x, Fin y => if Rle_dec x y then true else false
  | NInf, _ | _, PInf => true
  | PInf, _ | Fin _, NInf => false
  end.

(** [min(a, b)]: the first argument unless the second is smaller. *)
Definition min (a b : PyFloat) : PyFloat := if lt b a then b else a.

(** [math.atan2(y, x)]. *)
Definition atan2 (y x : PyFloat) : PyFloat :=
  match y, x with
  | NaN, _ | _, NaN => NaN
  | Fin b, Fin a => Fin (Py.atan2 b a)
  | PInf, PInf => Fin (PI / 4)
  | PInf, NInf => Fin (3 * PI / 4)
  | NInf, PInf => Fin (- (PI / 4))
  | NInf, NInf => Fin (- (3 * PI / 4))
  | PInf, Fin _ => Fin (PI / 2)
  | NInf, Fin _ => Fin (- (PI / 2))
  | Fin _, PInf => Fin 0
  | Fin b, NInf => if Rle_dec 0 b then Fin PI else Fin (- PI)
  end.

End Fl.

(** A method body: from the receiver to an outcome, a value or an
    exception, and the receiver it leaves. *)
Definition Method (A : Type) : Type :=
  VisualCarrierTracker -> (PyError + A) * VisualCarrierTracker.

Definition ret {A : Type} (a : A) : Method A := fun self => (inr a, self).

Definition raise {A : Type} (e : PyError) : Method A :=
  fun self => (inl e, self).

Definition bind {A B : Type} (m : Method A) (k : A -> Method B) : Method B :=
  fun self =>
    match m self with
    | (inr a, self') => k a self'
    | (inl e, self') => (inl e, self')
    end.

Notation "x <- m ;; k" := (bind m (fun x => k))
  (at level 61, m at next level, right associativity).

(** Reading and assigning the attributes of [self]. *)
Definition get_strategic_regions : Method (list (string * Region)) :=
  fun self => (inr (strategic_regions self), self).

Definition set_api_key (v : string) : Method unit :=
  fun self => (inr tt, mkTracker v (carrier_mmsi self) (strategic_regions self)).

Definition set_carrier_mmsi (v : list (string * string)) : Method unit :=
  fun self => (inr tt, mkTracker (api_key self) v (strategic_regions self)).

Definition set_strategic_regions (v : list (string * Region)) : Method unit :=
  fun self => (inr tt, mkTracker (api_key self) (carrier_mmsi self) v).

(** The three attribute assignments of [__init__], lines 15-45. *)
Definition dunder_init (key : option string) : Method unit :=
  _ <- set_api_key match key with
                   | None => default_api_key
                   | Some EmptyString => default_api_key
                   | Some k => k
                   end ;;
  _ <- set_carrier_mmsi default_carrier_mmsi ;;
  set_strategic_regions default_strategic_regions.

(** [math.sin(x)], [math.cos(x)]: a [ValueError] on an infinity, NaN on
    NaN. *)
Definition math_sin (x : PyFloat) : Method PyFloat :=
  match x with
  | Fin r => ret (Fin (sin r))
  | NaN => ret NaN
  | PInf | NInf => raise ValueError
  end.

Definition math_cos (x : PyFloat) : Method PyFloat :=
  match x with
  | Fin r => ret (Fin (cos r))
  | NaN => ret NaN
  | PInf | NInf => raise ValueError
  end.

(** The loop of lines 104-126 once more, statement by statement, the
    calls into [math] in the order Python evaluates them. *)
Fixpoint heading_loop_m (items : list (string * Region))
    (lat lon course : PyFloat) : Method string :=
  match items with
  | [] => ret other_operations
  | (region_key, region) :: rest =>
      let bounds := bounds region in
      let center_lat := Fin ((north bounds + south bounds) / 2) in
      let center_lon := Fin ((east bounds + west bounds) / 2) in
      let lat1 := Fl.radians lat in
      let lon1 := Fl.radians lon in
      let lat2 := Fl.radians center_lat in
      let lon2 := Fl.radians center_lon in
      let dlon := Fl.sub lon2 lon1 in
      sin_dlon <- math_sin dlon ;;
      cos_lat2 <- math_cos lat2 ;;
      cos_lat1 <- math_cos lat1 ;;
      sin_lat2 <- math_sin lat2 ;;
      sin_lat1 <- math_sin lat1 ;;
      cos_lat2' <- math_cos lat2 ;;
      cos_dlon <- math_cos dlon ;;
      let bearing :=
        Fl.atan2 (Fl.mul sin_dlon cos_lat2)
                 (Fl.sub (Fl.mul cos_lat1 sin_lat2)
                         (Fl.mul (Fl.mul sin_lat1 cos_lat2') cos_dlon)) in
      let bearing := Fl.degrees bearing in
      let bearing := Fl.fmod (Fl.add bearing (Fin 360)) 360 in
      let diff := Fl.abs (Fl.sub course bearing) in
      if Fl.le (Fl.min diff (Fl.sub (Fin 360) diff)) (Fin 45)
      then ret (name region)
      else heading_loop_m rest lat lon course
  end.

Definition is_heading_to_strategic_region_m (lat lon course : PyFloat)
    : Method string :=
  items <- get_strategic_regions ;;
  heading_loop_m items lat lon course.

(** One call on a receiver: what the caller gets, and the receiver after
    the call. *)
Definition invoke_classify (self : VisualCarrierTracker)
    (lat lon course : PyFloat) : (PyError + string) * VisualCarrierTracker :=
  is_heading_to_strategic_region_m lat lon course self.

Definition classify_outcome (self : VisualCarrierTracker)
    (lat lon course : PyFloat) : PyError + string :=
  fst (invoke_classify self lat lon course).

(** The first and second argument of the [atan2] call of lines 114-117. *)
Definition bearing_east (from to : GeoPoint) : R :=
  sin (Py.radians (longitude to) - Py.radians (longitude from))
  * cos (Py.radians (latitude to)).

Definition bearing_north (from to : GeoPoint) : R :=
  cos (Py.radians (latitude from)) * sin (Py.radians (latitude to))
  - sin (Py.radians (latitude from)) * cos (Py.radians (latitude to))
    * cos (Py.radians (longitude to) - Py.radians (longitude from)).

(** ** The compass points behind the arrow symbols *)

Inductive Compass : Type :=
  | North | NorthEast | East | SouthEast
  | South | SouthWest | West | NorthWest.

Definition compass_order : list Compass :=
  [ North; NorthEast; East; SouthEast; South; SouthWest; West; NorthWest ].

(** The symbol the source draws for each point (up, up-right, right,
    down-right, down, down-left, left, up-left arrows, as the bytes of the
    source file spell them). *)
Definition arrow_of (c : Compass) : string :=
  match c with
  | North => "‚Üë"
  | NorthEast => "‚Üó"
  | East => "‚Üí"
  | SouthEast => "‚Üò"
  | South => "‚Üì"
  | SouthWest => "‚Üô"
  | West => "‚Üê"
  | NorthWest => "‚Üñ"
  end.

(** The Eisenhower reading of the mock table (20.5 N, 40.2 E) and the
    three configured bounding boxes. *)
Definition red_sea : GeoPoint := mkPoint 20.5 40.2.

Definition middle_east_box : Bounds := mkBounds 40 12 65 25.
Definition indian_ocean_box : Bounds := mkBounds 25 (-40) 100 40.
Definition east_asia_box : Bounds := mkBounds 50 0 150 100.

(** ** Rational enclosures of sine and cosine

    The alternating Taylor polynomials of the standard library's
    [sin_lb], [sin_ub], [cos_lb], [cos_ub], written out. *)
Definition sin_low (x : R) : R := x - x^3 / 6 + x^5 / 120 - x^7 / 5040.
Definition sin_high (x : R) : R := sin_low x + x^9 / 362880.
Definition cos_low (x : R) : R := 1 - x^2 / 2 + x^4 / 24 - x^6 / 720.
Definition cos_high (x : R) : R := cos_low x + x^8 / 40320.

(** ** [get_vessel_position], [create_carrier_map], [generate_map_report]

    The network and the clock are inputs of the model: [session_get] gives
    the outcome of [self.session.get(url, timeout=10)] for a URL, and [now]
    is the string of [datetime.now().isoformat()].  The folium map that
    [create_carrier_map] draws is left out; its second result, the list
    [carriers_data], is kept. *)

(** One element of the JSON list of the tracking service, read with
    [vessel.get(...)]: a missing key gives [None].  The readings are taken
    to be finite numbers, and the timestamp a string, where present: a
    reading that is a string, NaN or an infinity makes the loop raise other
    exceptions, which are outside this part of the model. *)
Record VesselJson : Type := mkVesselJson {
  LAT : option R;
  LON : option R;
  COURSE : option R;
  SPEED : option R;
  TIMESTAMP : option string
}.

(** What the [try] block sees: the request raised, or a response with its
    status code; [json] is [None] when [response.json()] raises or yields
    something other than a list of vessels (any failure then ends in the
    [except] clause). *)
Inductive HttpOutcome : Type :=
  | HttpRaised
  | HttpStatus (status_code : Z) (json : option (list VesselJson)).

(** The dict returned by [get_vessel_position]. *)
Record PositionDict : Type := mkPosition {
  pos_mmsi : string;
  pos_lat : option R;
  pos_lon : option R;
  pos_course : option R;
  pos_speed : option R;
  pos_timestamp : option string
}.

(** [d.get(k)] on a dict kept as an association list. *)
Fixpoint dict_get {V : Type} (d : list (string * V)) (k : string) : option V :=
  match d with
  | [] => None
  | (k', v) :: rest => if String.eqb k k' then Some v else dict_get rest k
  end.

(** The table of lines 51-58: latitude, longitude, course. *)
Definition mock_positions : list (string * (R * R * R)) :=
  [ ("368123000"%string, (35.2, 33.1, 90));
    ("368456000"%string, (26.8, 50.3, 270));
    ("368789000"%string, (20.5, 40.2, 180));
    ("368234000"%string, (1.3, 103.8, 225));
    ("368567000"%string, (35.7, 139.7, 180));
    ("368890000"%string, (21.3, -157.8, 270)) ].

Definition vessel_url (self : VisualCarrierTracker) (mmsi : string) : string :=
  ("https://services.marinetraffic.com/api/exportvessel/v:5/" ++ api_key self
   ++ "/mmsi:" ++ mmsi ++ "/protocol:jsono")%string.

Definition get_vessel_position (self : VisualCarrierTracker)
    (session_get : string -> HttpOutcome) (now : string) (mmsi : string)
    : option PositionDict :=
  if String.eqb (api_key self) default_api_key then
    match dict_get mock_positions mmsi with
    | Some (lat, lon, course) =>
        Some (mkPosition mmsi (Some lat) (Some lon) (Some course)
                (Some 18.5) (Some now))
    | None => None
    end
  else
    match session_get (vessel_url self mmsi) with
    | HttpRaised => None
    | HttpStatus status_code json =>
        if (status_code =? 200)%Z then
          match json with
          | Some (vessel :: _) =>
              Some (mkPosition mmsi (LAT vessel) (LON vessel) (COURSE vessel)
                      (SPEED vessel) (TIMESTAMP vessel))
          | _ => None
          end
        else None
    end.

(** Truth value of a number or [None]: [None] and zero are false. *)
Definition truthy (x : option R) : option R :=
  match x with
  | Some v => if Req_dec_T v 0 then None else Some v
  | None => None
  end.

(** [x or 0] *)
Definition or_zero (x : option R) : R :=
  match truthy x with
  | Some v => v
  | None => 0
  end.

(** The [color_map] dict of lines 161-166 and [color_map.get(t, "gray")]. *)
Definition color_map : list (string * string) :=
  [ ("Middle East", "red");
    ("Indian Ocean", "blue");
    ("East Asia/Western Pacific", "green");
    ("Other Operations", "gray") ]%string.

Definition marker_color (target_region : string) : string :=
  match dict_get color_map target_region with
  | Some c => c
  | None => "gray"%string
  end.

(** The dict appended to [carriers_data]. *)
Record CarrierEntry : Type := mkEntry {
  entry_name : string;
  entry_position : R * R;
  entry_course : R;
  entry_speed : R;
  entry_target_region : string
}.

(** The exceptions of this part of the model: [directions[index]] out of
    range, [position['timestamp'][:19]] on [None], and a file that cannot
    be written. *)
Inductive Raised : Type :=
  | RaisedIndexError
  | RaisedTypeError
  | RaisedOSError.

(** The loop of lines 149-209 over [self.carrier_mmsi.items()]. *)
Fixpoint carrier_loop (self : VisualCarrierTracker)
    (session_get : string -> HttpOutcome) (now : string)
    (carriers : list (string * string)) (carriers_data : list CarrierEntry)
    : Raised + list CarrierEntry :=
  match carriers with
  | [] => inr carriers_data
  | (carrier_name, mmsi) :: rest =>
      match get_vessel_position self session_get now mmsi with
      | None => carrier_loop self session_get now rest carriers_data
      | Some position =>
          match truthy (pos_lat position), truthy (pos_lon position) with
          | Some lat, Some lon =>
              let course := or_zero (pos_course position) in
              let speed := or_zero (pos_speed position) in
              let target_region :=
                is_heading_to_strategic_region self lat lon course in
              let color := marker_color target_region in
              match calculate_direction_arrow self course with
              | None => inl RaisedIndexError
              | Some arrow =>
                  match pos_timestamp position with
                  | None => inl RaisedTypeError
                  | Some timestamp =>
                      carrier_loop self session_get now rest
                        (carriers_data ++
                         [mkEntry carrier_name (lat, lon) course speed
                            target_region])
                  end
              end
          | _, _ => carrier_loop self session_get now rest carriers_data
          end
      end
  end.

Definition create_carrier_map (self : VisualCarrierTracker)
    (session_get : string -> HttpOutcome) (now : string)
    : Raised + list CarrierEntry :=
  carrier_loop self session_get now (carrier_mmsi self) [].

(** The report dict of [generate_map_report]. *)
Record Report : Type := mkReport {
  report_timestamp : string;
  map_file : string;
  carriers : list CarrierEntry;
  deployed_middle_east : list CarrierEntry;
  deployed_indian_ocean : list CarrierEntry;
  deployed_east_asia : list CarrierEntry;
  api_source : string;
  disclaimer : string
}.

(** [[c for c in carriers_data if c["target_region"] == region]] *)
Definition heading_for (region : string) (carriers_data : list CarrierEntry)
    : list CarrierEntry :=
  filter (fun c => String.eqb (entry_target_region c) region) carriers_data.

(** Writing a file is an input of the model too: it succeeds or raises. *)
Inductive FileOutcome : Type :=
  | Written
  | WriteRaised.

(** [generate_map_report]: build the map, save it ([save_map] is the
    outcome of [carrier_map.save(map_file)]), build the report, dump it
    ([dump_report] is the outcome of opening and writing
    [visual_carrier_report.json]), return it. *)
Definition generate_map_report (self : VisualCarrierTracker)
    (session_get : string -> HttpOutcome) (now : string)
    (save_map dump_report : FileOutcome) : Raised + Report :=
  match create_carrier_map self session_get now with
  | inl e => inl e
  | inr carriers_data =>
      match save_map with
      | WriteRaised => inl RaisedOSError
      | Written =>
          let report :=
            mkReport now "uss_carrier_map.html" carriers_data
              (heading_for "Middle East" carriers_data)
              (heading_for "Indian Ocean" carriers_data)
              (heading_for "East Asia/Western Pacific" carriers_data)
              "MarineTraffic"
              "Military vessels may not broadcast AIS data for security reasons"
          in
          match dump_report with
          | WriteRaised => inl RaisedOSError
          | Written => inr report
          end
      end
  end.

(** What one pass of the loop body needs of a carrier: a position dict
    whose latitude and longitude are both true. *)
Definition usable_reading (self : VisualCarrierTracker)
    (session_get : string -> HttpOutcome) (now : string) (mmsi : string)
    : option (PositionDict * R * R) :=
  match get_vessel_position self session_get now mmsi with
  | Some position =>
      match truthy (pos_lat position), truthy (pos_lon position) with
      | Some lat, Some lon => Some (position, lat, lon)
      | _, _ => None
      end
  | None => None
  end.

Definition has_fix (self : VisualCarrierTracker)
    (session_get : string -> HttpOutcome) (now : string) (mmsi : string) : bool :=
  match usable_reading self session_get now mmsi with
  | Some _ => true
  | None => false
  end.

(** A usable reading whose timestamp is [None]. *)
Definition unstamped (self : VisualCarrierTracker)
    (session_get : string -> HttpOutcome) (now : string)
    (carrier : string * string) : bool :=
  match usable_reading self session_get now (snd carrier) with
  | Some (position, _, _) =>
      match pos_timestamp position with
      | None => true
      | Some _ => false
      end
  | None => false
  end.

(** The entry the loop body appends for a usable reading. *)
Definition entry_for (self : VisualCarrierTracker) (carrier_name : string)
    (reading : PositionDict * R * R) : CarrierEntry :=
  let '(position, lat, lon) := reading in
  mkEntry carrier_name (lat, lon) (or_zero (pos_course position))
    (or_zero (pos_speed position))
    (is_heading_to_strategic_region self lat lon (or_zero (pos_course position))).

Definition entries_of (self : VisualCarrierTracker)
    (session_get : string -> HttpOutcome) (now : string)
    (carriers : list (string * string)) : list CarrierEntry :=
  flat_map
    (fun carrier =>
       match usable_reading self session_get now (snd carrier) with
       | Some reading => [entry_for self (fst carrier) reading]
       | None => []
       end)
    carriers.

Definition has_mock (mmsi : string) : bool :=
  match dict_get mock_positions mmsi with
  | Some _ => true
  | None => false
  end.

(** A response of the service that yields no vessel. *)
Definition no_vessel (o : HttpOutcome) : Prop :=
  match o with
  | HttpStatus status_code (Some (_ :: _)) => status_code <> 200%Z
  | _ => True
  end.

(** The colour configured for the region of a given name, gray when there
    is none. *)
Definition region_color (regions : list (string * Region)) (target : string)
    : string :=
  match find (fun kr => String.eqb (name (snd kr)) target) regions with
  | Some (_, r) => color r
  | None => "gray"%string
  end.

(** ** [USSCarrierTracker.check_middle_east_deployments] of [uss_tracker.py]

    A deployment is a dict from strings to strings.  [str.lower] is taken
    as a parameter: nothing below depends on how it maps characters. *)

(** [needle in hay] on strings. *)
Fixpoint contains (needle hay : string) : bool :=
  if String.prefix needle hay then true
  else match hay with
       | EmptyString => false
       | String _ rest => contains needle rest
       end.

(** [d.get(k, "")] *)
Definition get_or_empty (d : list (string * string)) (k : string) : string :=
  match dict_get d k with
  | Some v => v
  | None => EmptyString
  end.

Definition middle_east_keywords : list string :=
  [ "middle east"; "persian gulf"; "red sea"; "arabian sea";
    "strait of hormuz"; "suez canal"; "mediterranean" ]%string.

Section KeywordFilter.

Variable lower : string -> string.

(** The condition of lines 82-83. *)
Definition mentions_middle_east (deployment : list (string * string)) : bool :=
  let status_lower := lower (get_or_empty deployment "status") in
  let region_lower := lower (get_or_empty deployment "region") in
  existsb (fun keyword =>
             (contains keyword status_lower
              || contains keyword region_lower)%bool)
    middle_east_keywords.

(** The loop of lines 77-86, appending to [middle_east_deployments]. *)
Fixpoint deployments_loop (deployments : list (list (string * string)))
    (middle_east_deployments : list (list (string * string)))
    : list (list (string * string)) :=
  match deployments with
  | [] => middle_east_deployments
  | deployment :: rest =>
      if mentions_middle_east deployment
      then deployments_loop rest (middle_east_deployments ++ [deployment])
      else deployments_loop rest middle_east_deployments
  end.

Definition check_middle_east_deployments
    (deployments : list (list (string * string)))
    : list (list (string * string)) :=
  deployments_loop deployments [].

End KeywordFilter.

(** ** The loop and the specification's vocabulary agree *)

Lemma heading_loop_nil lat lon c : heading_loop [] lat lon c = other_operations.
Proof. reflexivity. Qed.

Lemma heading_loop_cons key r rest lat lon c :
  heading_loop ((key, r) :: rest) lat lon c =
  if Rle_dec (circularDiff c
                (initialBearing (mkPoint lat lon) (region_center (bounds r)))) 45
  then name r
  else heading_loop rest lat lon c.
Proof. reflexivity. Qed.

Lemma heading_loop_hit key r rest lat lon c :
  circularDiff c (initialBearing (mkPoint lat lon) (region_center (bounds r))) <= 45 ->
  heading_loop ((key, r) :: rest) lat lon c = name r.
Proof.
  intros H. rewrite heading_loop_cons.
  destruct (Rle_dec _ 45) as [_ | n]; [reflexivity | contradiction].
Qed.

Lemma heading_loop_miss key r rest lat lon c :
  45 < circularDiff c (initialBearing (mkPoint lat lon) (region_center (bounds r))) ->
  heading_loop ((key, r) :: rest) lat lon c = heading_loop rest lat lon c.
Proof.
  intros H. rewrite heading_loop_cons.
  destruct (Rle_dec _ 45) as [le | _]; [lra | reflexivity].
Qed.

Lemma vessel_eta (v : VesselState) :
  mkPoint (latitude (position v)) (longitude (position v)) = position v.
Proof. destruct v as [[la lo] c s]; reflexivity. Qed.

(** The loop returns the sentinel or the name of one of the scanned regions. *)
Lemma heading_loop_codomain items lat lon c :
  heading_loop items lat lon c = other_operations \/
  In (heading_loop items lat lon c) (map (fun kr => name (snd kr)) items).
Proof.
  induction items as [| [key r] rest IH].
  - left; reflexivity.
  - rewrite heading_loop_cons. destruct (Rle_dec _ 45).
    + right; left; reflexivity.
    + destruct IH as [IH | IH]; [left; exact IH | right; right; exact IH].
Qed.

(** ** [Py.fmod], [Py.atan2] and [Py.degrees] *)

Lemma fmod_360_range a : 0 <= Py.fmod a 360 < 360.
Proof.
  unfold Py.fmod. pose proof (Zfloor_bound (a / 360)) as [lo hi].
  split; lra.
Qed.

Lemma fmod_360_shift b : 0 <= b < 360 -> Py.fmod (b + 360) 360 = b.
Proof.
  intros [lo hi]. unfold Py.fmod.
  rewrite (Zfloor_eq 1 ((b + 360) / 360)); [lra | split; lra].
Qed.

Lemma fmod_360_neg b : -360 <= b < 0 -> Py.fmod (b + 360) 360 = b + 360.
Proof.
  intros [lo hi]. unfold Py.fmod.
  rewrite (Zfloor_eq 0 ((b + 360) / 360)); [lra | split; lra].
Qed.

Lemma atan2_origin : Py.atan2 0 0 = 0.
Proof.
  unfold Py.atan2.
  destruct (total_order_T 0 0) as [[lt | _] | gt]; lra.
Qed.

Lemma degrees_0 : Py.degrees 0 = 0.
Proof. unfold Py.degrees; apply Rmult_0_l. Qed.

Lemma directions_compass : directions = map arrow_of compass_order.
Proof. reflexivity. Qed.

(** ** Facts on [Py.int], the index and the lookup *)

Lemma int_nonneg x : 0 <= x -> Py.int x = Zfloor x.
Proof.
  intros H. unfold Py.int. destruct (Rle_dec 0 x); [reflexivity | contradiction].
Qed.

Lemma int_neg x : x < 0 -> Py.int x = Zceil x.
Proof.
  intros H. unfold Py.int. destruct (Rle_dec 0 x); [lra | reflexivity].
Qed.

Lemma int_between (z : Z) x : (0 <= z)%Z -> IZR z <= x < IZR z + 1 -> Py.int x = z.
Proof.
  intros Hz Hx. rewrite int_nonneg.
  - apply Zfloor_eq; exact Hx.
  - apply IZR_le in Hz. lra.
Qed.

Lemma direction_index_range c : (0 <= direction_index c < 8)%Z.
Proof. unfold direction_index, Py.imod. apply Z.mod_pos_bound. lia. Qed.

Lemma direction_index_floor c :
  -22.5 <= c ->
  direction_index c = (Zfloor ((c + 22.5) / 45) mod 8)%Z.
Proof.
  intros H. unfold direction_index, Py.imod.
  rewrite int_nonneg; [reflexivity |].
  apply Rmult_le_pos; lra.
Qed.

Lemma getitem_directions (i : Z) :
  (0 <= i < 8)%Z ->
  Py.getitem directions i = nth_error directions (Z.to_nat i) /\
  exists s, nth_error directions (Z.to_nat i) = Some s /\ In s directions.
Proof.
  intros [lo hi]. unfold Py.getitem.
  destruct (Z.leb_spec 0 i) as [_ | neg]; [| lia].
  split; [reflexivity |].
  destruct (nth_error directions (Z.to_nat i)) as [s |] eqn:E.
  - exists s. split; [reflexivity |]. eapply nth_error_In; exact E.
  - apply nth_error_None in E. simpl in E. lia.
Qed.

Lemma arrow_at (self : VisualCarrierTracker) (c : R) (z : Z) :
  (0 <= z)%Z -> IZR z <= (c + 22.5) / 45 < IZR z + 1 ->
  calculate_direction_arrow self c = nth_error directions (Z.to_nat (z mod 8)).
Proof.
  intros Hz Hc. unfold calculate_direction_arrow.
  assert (E : direction_index c = (z mod 8)%Z).
  { unfold direction_index, Py.imod. rewrite (int_between z); auto. }
  rewrite E. apply getitem_directions. apply Z.mod_pos_bound. lia.
Qed.

Lemma arrow_0 self : calculate_direction_arrow self 0 = Some (arrow_of North).
Proof. rewrite (arrow_at self 0 0); [reflexivity | lia | simpl; lra]. Qed.

Lemma arrow_45 self : calculate_direction_arrow self 45 = Some (arrow_of NorthEast).
Proof. rewrite (arrow_at self 45 1); [reflexivity | lia | simpl; lra]. Qed.

Lemma arrow_315 self : calculate_direction_arrow self 315 = Some (arrow_of NorthWest).
Proof. rewrite (arrow_at self 315 7); [reflexivity | lia | simpl; lra]. Qed.

Lemma arrow_360 self : calculate_direction_arrow self 360 = Some (arrow_of North).
Proof. rewrite (arrow_at self 360 8); [reflexivity | lia | simpl; lra]. Qed.

(** [int] rounds [-0.5] up to [0]: the course [-45] lands on index [0]. *)
Lemma arrow_minus_45 self :
  calculate_direction_arrow self (-45) = Some (arrow_of North).
Proof.
  unfold calculate_direction_arrow.
  assert (E : direction_index (-45) = 0%Z).
  { unfold direction_index, Py.imod. rewrite int_neg by lra.
    rewrite (Zceil_eq 0); [reflexivity | simpl; lra]. }
  rewrite E. reflexivity.
Qed.

Lemma fmod_minus_45 : Py.fmod (-45) 360 = 315.
Proof.
  unfold Py.fmod. rewrite (Zfloor_eq (-1)); [lra | simpl; lra].
Qed.

(** From [-22.5] upward the index is cyclic in the course. *)
Lemma arrow_wraps_above self c :
  -22.5 <= c ->
  calculate_direction_arrow self c =
  calculate_direction_arrow self (Py.fmod c 360).
Proof.
  intros H. unfold calculate_direction_arrow. f_equal.
  pose proof (fmod_360_range c) as [rlo rhi].
  rewrite (direction_index_floor c) by exact H.
  rewrite (direction_index_floor (Py.fmod c 360)) by lra.
  set (k := Zfloor (c / 360)).
  replace ((c + 22.5) / 45)
    with ((Py.fmod c 360 + 22.5) / 45 + IZR (k * 8)).
  - rewrite Zfloor_addz. apply Z.mod_add. lia.
  - unfold Py.fmod. fold k. rewrite mult_IZR. lra.
Qed.

(** ** Enclosures of [PI], [sin] and [cos] by rationals *)

Module Enclosure.

Lemma PI_bounds : 3.14159 < PI < 3.14160.
Proof.
  pose proof (PI_2_3_7_ineq 3) as H.
  unfold sum_f_R0, tg_alt, PI_2_3_7_tg, Ratan_seq in H.
  simpl in H. lra.
Qed.

Lemma INR_fact_S n : INR (fact (S n)) = INR (S n) * INR (fact n).
Proof. rewrite fact_simpl. apply mult_INR. Qed.

Lemma INR_fact_values :
  INR (fact 2) = 2 /\ INR (fact 3) = 6 /\ INR (fact 4) = 24 /\
  INR (fact 5) = 120 /\ INR (fact 6) = 720 /\ INR (fact 7) = 5040 /\
  INR (fact 8) = 40320 /\ INR (fact 9) = 362880.
Proof.
  assert (f1 : INR (fact 1) = 1) by (simpl; lra).
  assert (f2 : INR (fact 2) = 2) by (rewrite INR_fact_S, f1; simpl; lra).
  assert (f3 : INR (fact 3) = 6) by (rewrite INR_fact_S, f2; simpl; lra).
  assert (f4 : INR (fact 4) = 24) by (rewrite INR_fact_S, f3; simpl; lra).
  assert (f5 : INR (fact 5) = 120) by (rewrite INR_fact_S, f4; simpl; lra).
  assert (f6 : INR (fact 6) = 720) by (rewrite INR_fact_S, f5; simpl; lra).
  assert (f7 : INR (fact 7) = 5040) by (rewrite INR_fact_S, f6; simpl; lra).
  assert (f8 : INR (fact 8) = 40320) by (rewrite INR_fact_S, f7; simpl; lra).
  assert (f9 : INR (fact 9) = 362880) by (rewrite INR_fact_S, f8; simpl; lra).
  tauto.
Qed.

Lemma sin_taylor a : 0 <= a <= 3/2 -> sin_low a <= sin a <= sin_high a.
Proof.
  intros [lo hi]. pose proof PI_bounds as Hpi.
  pose proof (SIN a lo ltac:(lra)) as H.
  unfold sin_lb, sin_ub, sin_approx, sin_term, sum_f_R0 in H.
  cbn [Nat.mul Nat.add] in H.
  destruct INR_fact_values as (f2 & f3 & f4 & f5 & f6 & f7 & f8 & f9).
  rewrite f3, f5, f7, f9 in H.
  replace (INR (fact 1)) with 1 in H by (simpl; lra).
  unfold sin_high, sin_low. lra.
Qed.

Lemma cos_taylor a : 0 <= a <= 3/2 -> cos_low a <= cos a <= cos_high a.
Proof.
  intros [lo hi]. pose proof PI_bounds as Hpi.
  pose proof (COS a ltac:(lra) ltac:(lra)) as H.
  unfold cos_lb, cos_ub, cos_approx, cos_term, sum_f_R0 in H.
  cbn [Nat.mul Nat.add] in H.
  destruct INR_fact_values as (f2 & f3 & f4 & f5 & f6 & f7 & f8 & f9).
  rewrite f2, f4, f6, f8 in H.
  replace (INR (fact 0)) with 1 in H by (simpl; lra).
  unfold cos_high, cos_low. lra.
Qed.

(** On [0, 3/2] the sine grows and the cosine falls, so rational end
    points enclose the value at any angle between them. *)
Lemma sin_enclosure a lo hi :
  0 <= lo -> lo <= a <= hi -> hi <= 3/2 ->
  sin_low lo <= sin a <= sin_high hi.
Proof.
  intros H0 [Hl Hh] H1. pose proof PI_bounds as Hpi.
  pose proof (sin_taylor lo ltac:(lra)) as [Llo _].
  pose proof (sin_taylor hi ltac:(lra)) as [_ Uhi].
  assert (sin lo <= sin a) by (apply sin_incr_1; lra).
  assert (sin a <= sin hi) by (apply sin_incr_1; lra).
  lra.
Qed.

Lemma cos_enclosure a lo hi :
  0 <= lo -> lo <= a <= hi -> hi <= 3/2 ->
  cos_low hi <= cos a <= cos_high lo.
Proof.
  intros H0 [Hl Hh] H1. pose proof PI_bounds as Hpi.
  pose proof (cos_taylor hi ltac:(lra)) as [Lhi _].
  pose proof (cos_taylor lo ltac:(lra)) as [_ Ulo].
  assert (cos hi <= cos a) by (apply cos_decr_1; lra).
  assert (cos a <= cos lo) by (apply cos_decr_1; lra).
  lra.
Qed.

Lemma mult_enclosure a b al au bl bu :
  al <= a <= au -> bl <= b <= bu -> 0 <= al -> 0 <= bl ->
  al * bl <= a * b <= au * bu.
Proof.
  intros [A1 A2] [B1 B2] Ha Hb. split.
  - apply Rmult_le_compat; lra.
  - apply Rmult_le_compat; lra.
Qed.

End Enclosure.

(** ** Where the bearing falls, from the signs of the two components *)

Lemma initialBearing_components from to :
  initialBearing from to =
  Py.fmod (Py.degrees (Py.atan2 (bearing_east from to) (bearing_north from to)) + 360) 360.
Proof. reflexivity. Qed.

Lemma atan2_pos_x y x : 0 < x -> Py.atan2 y x = atan (y / x).
Proof.
  intros H. unfold Py.atan2.
  destruct (total_order_T x 0) as [[lt | eq] | gt]; lra.
Qed.

Lemma atan2_neg_x y x : x < 0 -> 0 <= y -> Py.atan2 y x = atan (y / x) + PI.
Proof.
  intros Hx Hy. unfold Py.atan2.
  destruct (total_order_T x 0) as [[lt | eq] | gt]; try lra.
  destruct (Rle_dec 0 y); [reflexivity | contradiction].
Qed.

(** [math.atan2] ranges over (-pi, pi]. *)
Lemma atan2_range y x : - PI < Py.atan2 y x <= PI.
Proof.
  pose proof PI_RGT_0 as Hpi. unfold Py.atan2.
  destruct (total_order_T x 0) as [[lt | eq] | gt].
  - pose proof (atan_bound (y / x)) as [lo hi].
    destruct (Rle_dec 0 y) as [ynn | yneg].
    + assert (y / x <= 0).
      { assert (/ x < 0) by (apply Rinv_lt_0_compat; exact lt).
        unfold Rdiv. nra. }
      assert (atan (y / x) <= 0).
      { rewrite <- atan_0. destruct H as [H | H].
        - left. apply atan_increasing. exact H.
        - rewrite H. right. reflexivity. }
      lra.
    + assert (0 < y / x).
      { assert (/ x < 0) by (apply Rinv_lt_0_compat; exact lt).
        unfold Rdiv. nra. }
      assert (0 < atan (y / x)).
      { rewrite <- atan_0. apply atan_increasing. assumption. }
      lra.
  - destruct (total_order_T y 0) as [[ylt | yeq] | ygt]; lra.
  - pose proof (atan_bound (y / x)). lra.
Qed.

Lemma degrees_lt a b : a < b -> Py.degrees a < Py.degrees b.
Proof.
  intros H. unfold Py.degrees. apply Rmult_lt_compat_r; [| exact H].
  pose proof PI_RGT_0. apply Rdiv_lt_0_compat; lra.
Qed.

Lemma degrees_le a b : a <= b -> Py.degrees a <= Py.degrees b.
Proof.
  intros [H | H]; [left; apply degrees_lt; exact H | rewrite H; right; reflexivity].
Qed.

Lemma degrees_PI_frac (q : R) : Py.degrees (q * PI) = q * 180.
Proof. unfold Py.degrees. pose proof PI_neq0. field. assumption. Qed.

(** The bearing computed from any two components lies in [0, 360). *)
Lemma bearing_range y x :
  0 <= Py.fmod (Py.degrees (Py.atan2 y x) + 360) 360 < 360.
Proof. apply fmod_360_range. Qed.

(** North component positive, east component between zero and the north
    one: the bearing is within [0, 45]. *)
Lemma bearing_octant_north_east y x :
  0 <= y -> y <= x -> 0 < x ->
  0 <= Py.fmod (Py.degrees (Py.atan2 y x) + 360) 360 <= 45.
Proof.
  intros Hy Hyx Hx. rewrite atan2_pos_x by exact Hx.
  assert (Q : 0 <= y / x <= 1).
  { split.
    - apply Rmult_le_pos; [exact Hy | left; apply Rinv_0_lt_compat; exact Hx].
    - apply Rmult_le_reg_r with x; [exact Hx |].
      unfold Rdiv. rewrite Rmult_assoc, Rinv_l by lra. lra. }
  assert (A : 0 <= atan (y / x) <= 1 / 4 * PI).
  { split.
    - rewrite <- atan_0. destruct (proj1 Q) as [H | H].
      + left; apply atan_increasing; exact H.
      + rewrite <- H; right; reflexivity.
    - replace (1 / 4 * PI) with (PI / 4) by lra. rewrite <- atan_1.
      destruct (proj2 Q) as [H | H].
      + left; apply atan_increasing; exact H.
      + rewrite H; right; reflexivity. }
  pose proof (degrees_le _ _ (proj1 A)) as D0.
  pose proof (degrees_le _ _ (proj2 A)) as D1.
  rewrite degrees_0 in D0. rewrite degrees_PI_frac in D1.
  rewrite fmod_360_shift; lra.
Qed.

(** Both components positive: the bearing is strictly between 0 and 90. *)
Lemma bearing_quadrant_north_east y x :
  0 < y -> 0 < x ->
  0 < Py.fmod (Py.degrees (Py.atan2 y x) + 360) 360 < 90.
Proof.
  intros Hy Hx. rewrite atan2_pos_x by exact Hx.
  assert (Q : 0 < y / x).
  { apply Rmult_lt_0_compat; [exact Hy | apply Rinv_0_lt_compat; exact Hx]. }
  assert (A : 0 < atan (y / x) < 1 / 2 * PI).
  { split.
    - rewrite <- atan_0. apply atan_increasing; exact Q.
    - pose proof (atan_bound (y / x)). lra. }
  pose proof (degrees_lt _ _ (proj1 A)) as D0.
  pose proof (degrees_lt _ _ (proj2 A)) as D1.
  rewrite degrees_0 in D0. rewrite degrees_PI_frac in D1.
  rewrite fmod_360_shift; lra.
Qed.

(** North component negative and smaller in size than a positive east
    component: the bearing is strictly between 90 and 135. *)
Lemma bearing_octant_east_south y x :
  x < 0 -> - x < y ->
  90 < Py.fmod (Py.degrees (Py.atan2 y x) + 360) 360 < 135.
Proof.
  intros Hx Hyx. rewrite atan2_neg_x by lra.
  assert (Q : y / x < - 1).
  { apply Rmult_lt_reg_r with (- x); [lra |].
    unfold Rdiv. replace (y * / x * - x) with (- y * (/ x * x)) by ring.
    rewrite Rinv_l by lra. lra. }
  assert (A : 1 / 2 * PI < atan (y / x) + PI < 3 / 4 * PI).
  { split.
    - pose proof (atan_bound (y / x)). lra.
    - assert (atan (y / x) < atan (Ropp 1)) by (apply atan_increasing; lra).
      rewrite atan_opp, atan_1 in H. lra. }
  pose proof (degrees_lt _ _ (proj1 A)) as D0.
  pose proof (degrees_lt _ _ (proj2 A)) as D1.
  rewrite degrees_PI_frac in D0. rewrite degrees_PI_frac in D1.
  rewrite fmod_360_shift; lra.
Qed.

(** The circular difference at the three courses used below. *)
Lemma circularDiff_course_0 b : 0 <= b <= 45 -> circularDiff 0 b <= 45.
Proof.
  intros [lo hi]. unfold circularDiff, Rmin.
  destruct (Rle_dec _ _); unfold Rabs in *; destruct (Rcase_abs _); lra.
Qed.

Lemma circularDiff_course_360 b : 0 <= b <= 45 -> circularDiff 360 b <= 45.
Proof.
  intros [lo hi]. unfold circularDiff, Rmin.
  destruct (Rle_dec _ _); unfold Rabs in *; destruct (Rcase_abs _); lra.
Qed.

Lemma circularDiff_course_180 b : 0 <= b < 135 -> 45 < circularDiff 180 b.
Proof.
  intros [lo hi]. unfold circularDiff, Rmin.
  destruct (Rle_dec _ _); unfold Rabs in *; destruct (Rcase_abs _); lra.
Qed.

(** ** The Red Sea reading against the three region centers *)

Ltac enclose_sin a lo hi H :=
  pose proof (Enclosure.sin_enclosure a lo hi
                ltac:(lra) ltac:(lra) ltac:(lra)) as H;
  unfold sin_high, sin_low in H.

Ltac enclose_cos a lo hi H :=
  pose proof (Enclosure.cos_enclosure a lo hi
                ltac:(lra) ltac:(lra) ltac:(lra)) as H;
  unfold cos_high, cos_low in H.

Ltac enclose_mult A B H :=
  pose proof (Enclosure.mult_enclosure _ _ _ _ _ _ A B) as H;
  lapply H; [clear H; intro H; lapply H; [clear H; intro H | lra] | lra].

(** Sine and cosine of the vessel's latitude. *)
Lemma red_sea_latitude :
  0.3502 <= sin (Py.radians 20.5) <= 0.3503 /\
  0.9366 <= cos (Py.radians 20.5) <= 0.9367.
Proof.
  pose proof Enclosure.PI_bounds as Hpi. unfold Py.radians.
  set (a := 20.5 * (PI / 180)).
  assert (Ha : 0.35779 <= a <= 0.35780) by (unfold a; lra).
  enclose_sin a 0.35779 0.35780 Es.
  enclose_cos a 0.35779 0.35780 Ec.
  split; lra.
Qed.

(** Toward the Middle East center (26 N, 45 E): both components are
    positive and the east one is the smaller, a bearing of about 38. *)
Lemma middle_east_components :
  0 < bearing_east red_sea (region_center middle_east_box) /\
  bearing_east red_sea (region_center middle_east_box)
  <= bearing_north red_sea (region_center middle_east_box).
Proof.
  pose proof Enclosure.PI_bounds as Hpi.
  destruct red_sea_latitude as [S1 C1].
  unfold bearing_east, bearing_north, region_center, middle_east_box, red_sea.
  cbn [latitude longitude north south east west].
  unfold Py.radians in *.
  set (a1 := 20.5 * (PI / 180)) in *.
  set (a2 := (40 + 12) / 2 * (PI / 180)).
  set (dl := (65 + 25) / 2 * (PI / 180) - 40.2 * (PI / 180)).
  assert (Ha2 : 0.45378 <= a2 <= 0.45379) by (unfold a2; lra).
  assert (Hdl : 0.08377 <= dl <= 0.08378) by (unfold dl; lra).
  enclose_sin a2 0.45378 0.45379 S2'.
  enclose_cos a2 0.45378 0.45379 C2'.
  enclose_sin dl 0.08377 0.08378 SD'.
  enclose_cos dl 0.08377 0.08378 CD'.
  assert (S2 : 0.4383 <= sin a2 <= 0.4384) by lra.
  assert (C2 : 0.8987 <= cos a2 <= 0.8988) by lra.
  assert (SD : 0.0836 <= sin dl <= 0.0837) by lra.
  assert (CD : 0.9964 <= cos dl <= 0.9965) by lra.
  clear S2' C2' SD' CD'.
  enclose_mult SD C2 Y.
  enclose_mult C1 S2 P1.
  enclose_mult S1 C2 P2.
  enclose_mult P2 CD P3.
  split; lra.
Qed.

(** Toward the Indian Ocean center (7.5 S, 70 E): the north component is
    negative and smaller in size than the east one, a bearing of about 131. *)
Lemma indian_ocean_components :
  bearing_north red_sea (region_center indian_ocean_box) < 0 /\
  - bearing_north red_sea (region_center indian_ocean_box)
  < bearing_east red_sea (region_center indian_ocean_box).
Proof.
  pose proof Enclosure.PI_bounds as Hpi.
  destruct red_sea_latitude as [S1 C1].
  unfold bearing_east, bearing_north, region_center, indian_ocean_box, red_sea.
  cbn [latitude longitude north south east west].
  unfold Py.radians in *.
  set (a1 := 20.5 * (PI / 180)) in *.
  set (a2 := 7.5 * (PI / 180)).
  replace ((25 + -40) / 2 * (PI / 180)) with (- a2) by (unfold a2; lra).
  rewrite sin_neg, cos_neg.
  set (dl := (100 + 40) / 2 * (PI / 180) - 40.2 * (PI / 180)).
  assert (Ha2 : 0.13089 <= a2 <= 0.13091) by (unfold a2; lra).
  assert (Hdl : 0.52010 <= dl <= 0.52012) by (unfold dl; lra).
  enclose_sin a2 0.13089 0.13091 S2'.
  enclose_cos a2 0.13089 0.13091 C2'.
  enclose_sin dl 0.52010 0.52012 SD'.
  enclose_cos dl 0.52010 0.52012 CD'.
  assert (S2 : 0.1305 <= sin a2 <= 0.1306) by lra.
  assert (C2 : 0.9914 <= cos a2 <= 0.9915) by lra.
  assert (SD : 0.4969 <= sin dl <= 0.4970) by lra.
  assert (CD : 0.8677 <= cos dl <= 0.8678) by lra.
  clear S2' C2' SD' CD'.
  enclose_mult SD C2 Y.
  enclose_mult C1 S2 P1.
  enclose_mult S1 C2 P2.
  enclose_mult P2 CD P3.
  split; lra.
Qed.

(** Toward the East Asia center (25 N, 125 E): both components are
    positive, a bearing of about 68. *)
Lemma east_asia_components :
  0 < bearing_east red_sea (region_center east_asia_box) /\
  0 < bearing_north red_sea (region_center east_asia_box).
Proof.
  pose proof Enclosure.PI_bounds as Hpi.
  destruct red_sea_latitude as [S1 C1].
  unfold bearing_east, bearing_north, region_center, east_asia_box, red_sea.
  cbn [latitude longitude north south east west].
  unfold Py.radians in *.
  set (a1 := 20.5 * (PI / 180)) in *.
  set (a2 := (50 + 0) / 2 * (PI / 180)).
  set (dl := (150 + 100) / 2 * (PI / 180) - 40.2 * (PI / 180)).
  assert (Ha2 : 0.43633 <= a2 <= 0.43634) by (unfold a2; lra).
  assert (Hdl : 1.48003 <= dl <= 1.48005) by (unfold dl; lra).
  enclose_sin a2 0.43633 0.43634 S2'.
  enclose_cos a2 0.43633 0.43634 C2'.
  enclose_sin dl 1.48003 1.48005 SD'.
  enclose_cos dl 1.48003 1.48005 CD'.
  assert (S2 : 0.4226 <= sin a2 <= 0.4227) by lra.
  assert (C2 : 0.9063 <= cos a2 <= 0.9064) by lra.
  assert (SD : 0.99 <= sin dl <= 1) by lra.
  assert (CD : 0.09 <= cos dl <= 0.092) by lra.
  clear S2' C2' SD' CD'.
  enclose_mult SD C2 Y.
  enclose_mult C1 S2 P1.
  enclose_mult S1 C2 P2.
  enclose_mult P2 CD P3.
  split; lra.
Qed.

Lemma middle_east_bearing :
  0 <= initialBearing red_sea (region_center middle_east_box) <= 45.
Proof.
  rewrite initialBearing_components.
  destruct middle_east_components as [Hy Hyx].
  apply bearing_octant_north_east; lra.
Qed.

Lemma indian_ocean_bearing :
  90 < initialBearing red_sea (region_center indian_ocean_box) < 135.
Proof.
  rewrite initialBearing_components.
  destruct indian_ocean_components as [Hx Hyx].
  apply bearing_octant_east_south; assumption.
Qed.

Lemma east_asia_bearing :
  0 < initialBearing red_sea (region_center east_asia_box) < 90.
Proof.
  rewrite initialBearing_components.
  destruct east_asia_components as [Hy Hx].
  apply bearing_quadrant_north_east; assumption.
Qed.

(** Heading due south from the Red Sea reading, the loop passes all three
    regions and falls through to the sentinel. *)
Lemma red_sea_course_180 :
  heading_loop default_strategic_regions 20.5 40.2 180 = other_operations.
Proof.
  pose proof middle_east_bearing as M.
  pose proof indian_ocean_bearing as I.
  pose proof east_asia_bearing as A.
  unfold default_strategic_regions.
  rewrite heading_loop_miss
    by (apply circularDiff_course_180; cbn [bounds];
        fold middle_east_box; fold red_sea; lra).
  rewrite heading_loop_miss
    by (apply circularDiff_course_180; cbn [bounds];
        fold indian_ocean_box; fold red_sea; lra).
  rewrite heading_loop_miss
    by (apply circularDiff_course_180; cbn [bounds];
        fold east_asia_box; fold red_sea; lra).
  reflexivity.
Qed.

(** Heading due north, the first region already matches. *)
Lemma red_sea_course_0 :
  heading_loop default_strategic_regions 20.5 40.2 0 = "Middle East"%string.
Proof.
  unfold default_strategic_regions.
  rewrite heading_loop_hit; [reflexivity |].
  apply circularDiff_course_0. exact middle_east_bearing.
Qed.

(** The course 360, outside [0, 360), is classified like the course 0. *)
Lemma red_sea_course_360 :
  heading_loop default_strategic_regions 20.5 40.2 360 = "Middle East"%string.
Proof.
  unfold default_strategic_regions.
  rewrite heading_loop_hit; [reflexivity |].
  apply circularDiff_course_360. exact middle_east_bearing.
Qed.

Lemma classify_init key lat lon c s :
  classify (init key) (mkVessel (mkPoint lat lon) c s) =
  heading_loop default_strategic_regions lat lon c.
Proof. reflexivity. Qed.

(** First-match characterisation of the loop over any item list. *)
Lemma heading_loop_first_match items v :
  let regions := map snd items in
  let result :=
    heading_loop items (latitude (position v)) (longitude (position v)) (course v) in
  (exists before r after,
      regions = before ++ r :: after /\
      Forall (fun q => ~ heads_toward v 45 q) before /\
      heads_toward v 45 r /\
      result = name r)
  \/ (Forall (fun q => ~ heads_toward v 45 q) regions /\
      result = other_operations).
Proof.
  cbv zeta. induction items as [| [key r] rest IH].
  - right. split; [constructor | reflexivity].
  - rewrite heading_loop_cons, vessel_eta.
    destruct (Rle_dec _ 45) as [hit | miss].
    + left. exists [], r, (map snd rest).
      split; [reflexivity |]. split; [constructor |].
      split; [exact hit | reflexivity].
    + destruct IH as [(before & q & after & E & B & Hq & Res) | [All Res]].
      * left. exists (r :: before), q, after.
        split; [cbn [map snd]; rewrite E; reflexivity |].
        split; [constructor; [exact miss | exact B] |].
        split; [exact Hq | exact Res].
      * right. split; [| exact Res].
        cbn [map snd]. constructor; [exact miss | exact All].
Qed.

(** ** The method with exceptions and receiver: its outcomes *)

Lemma fl_test_finite a b :
  Fl.le (Fl.min (Fin a) (Fin b)) (Fin 45) =
  if Rle_dec (Rmin a b) 45 then true else false.
Proof.
  unfold Fl.min, Fl.lt, Rmin.
  destruct (Rlt_dec b a); destruct (Rle_dec a b); cbn [Fl.le]; try lra;
    try reflexivity.
Qed.

(** On finite values the second embedding computes what the first one
    does, raises nothing and returns the receiver it was given. *)
Lemma heading_loop_m_finite items lat lon c self :
  heading_loop_m items (Fin lat) (Fin lon) (Fin c) self =
  (inr (heading_loop items lat lon c), self).
Proof.
  induction items as [| [key r] rest IH]; [reflexivity |].
  cbn [heading_loop_m heading_loop Fl.radians Fl.sub math_sin math_cos bind ret
       Fl.mul Fl.atan2 Fl.degrees Fl.add Fl.fmod Fl.abs].
  rewrite fl_test_finite.
  destruct (Rle_dec _ 45); [reflexivity | exact IH].
Qed.

(** Every outcome of the loop, for all float values: the outcome does not
    depend on the receiver, the receiver is returned as it was, and the
    only exception is the [ValueError] of an infinite latitude or
    longitude. *)
Lemma heading_loop_m_outcome items lat lon c :
  exists o,
    (forall self, heading_loop_m items lat lon c self = (o, self)) /\
    match o with
    | inr target =>
        target = other_operations \/
        In target (map (fun kr => name (snd kr)) items)
    | inl e => e = ValueError /\ (infinite lat \/ infinite lon)
    end /\
    (infinite lat \/ infinite lon -> items <> [] -> o = inl ValueError).
Proof.
  induction items as [| [key r] rest (o & Hrun & Hcases & Hinf)].
  - exists (inr other_operations). split; [reflexivity |].
    split; [left; reflexivity | intros _ H; contradiction].
  - destruct lon as [lo | | |].
    2,3: (exists (inl ValueError); split; [reflexivity |]; unfold infinite;
          split; [split; [reflexivity | right; auto] | reflexivity]).
    all: destruct lat as [la | | |].
    2,3,6,7: (exists (inl ValueError); split; [reflexivity |];
              unfold infinite;
              split; [split; [reflexivity | left; auto] | reflexivity]).
    all: cbn [heading_loop_m Fl.radians Fl.sub math_sin math_cos bind ret];
      match goal with
      | |- context [if ?t then _ else _] => destruct t eqn:T
      end.
    all: try (exists (inr (name r)); split; [intros self; reflexivity |];
              split; [right; left; reflexivity |];
              unfold infinite; intros [[H | H] | [H | H]]; discriminate).
    all: exists o; split;
      [intros self; apply Hrun |];
      split;
      [ destruct o as [e | target];
        [exact Hcases | destruct Hcases as [H | H]; [left; exact H | right; right; exact H]]
      | unfold infinite; intros [[H | H] | [H | H]]; discriminate ].
Qed.

Lemma is_heading_m_outcome self lat lon c :
  exists o,
    invoke_classify self lat lon c = (o, self) /\
    (forall self', strategic_regions self' = strategic_regions self ->
                   invoke_classify self' lat lon c = (o, self')) /\
    match o with
    | inr target =>
        target = other_operations \/
        In target (map (fun kr => name (snd kr)) (strategic_regions self))
    | inl e => e = ValueError /\ (infinite lat \/ infinite lon)
    end /\
    (infinite lat \/ infinite lon -> strategic_regions self <> [] ->
     o = inl ValueError).
Proof.
  destruct (heading_loop_m_outcome (strategic_regions self) lat lon c)
    as (o & Hrun & Hcases & Hinf).
  exists o. unfold invoke_classify, is_heading_to_strategic_region_m, bind,
    get_strategic_regions.
  split; [apply Hrun |]. split; [| split; assumption].
  intros self' E. rewrite E. apply Hrun.
Qed.

(** The values that are not finite, on the configured tracker: an
    infinite latitude or longitude raises, a NaN one matches no region, an
    infinite course matches the first region, a NaN course none. *)
Lemma classify_special_values :
  classify_outcome (init None) PInf (Fin 40.2) (Fin 0) = inl ValueError /\
  classify_outcome (init None) (Fin 20.5) NInf (Fin 0) = inl ValueError /\
  classify_outcome (init None) NaN (Fin 40.2) (Fin 0)
    = inr "Other Operations"%string /\
  classify_outcome (init None) (Fin 20.5) (Fin 40.2) PInf
    = inr "Middle East"%string /\
  classify_outcome (init None) (Fin 20.5) (Fin 40.2) NaN
    = inr "Other Operations"%string.
Proof. repeat split; reflexivity. Qed.

(** Unlike the classifier, [__init__] does assign: whatever the receiver
    was, it leaves the tracker of [init]. *)
Lemma dunder_init_assigns key self :
  dunder_init key self = (inr tt, init key).
Proof. reflexivity. Qed.

(** * The claims *)

(** C1.  For every tracker (so for the configured region list too) and every
    vessel state, the classifier scans the regions in list order and returns
    the name of the first region whose center (the midpoint of its bounding
    box) lies at an initial bearing within 45 degrees, circularly, of the
    course: every region before it fails the test.  When no region of the
    list passes, the result is the sentinel "Other Operations". *)
Theorem classify_first_match (self : VisualCarrierTracker) (v : VesselState) :
  let regions := map snd (strategic_regions self) in
  (exists before r after,
      regions = before ++ r :: after /\
      Forall (fun q => ~ heads_toward v 45 q) before /\
      heads_toward v 45 r /\
      classify self v = name r)
  \/ (Forall (fun q => ~ heads_toward v 45 q) regions /\
      classify self v = "Other Operations"%string).
Proof.
  exact (heading_loop_first_match (strategic_regions self) v).
Qed.

(** C2, as amended.  The classifier checks no range and never fails with
    [InvalidInput].  For every input whose latitude and longitude are not
    infinite, in range or out of range, with any course (infinite and NaN
    included), the call returns a classification: the sentinel or the name
    of one of the listed regions.  Its only failure is the [ValueError] of
    [math.sin] and [math.cos], raised when the latitude or the longitude is
    infinite and the region list is not empty. *)
Theorem classify_never_rejects (self : VisualCarrierTracker)
    (lat lon course : PyFloat) :
  classify_outcome self lat lon course <> inl InvalidInput /\
  (~ infinite lat -> ~ infinite lon ->
   exists s,
     classify_outcome self lat lon course = inr s /\
     (s = "Other Operations"%string \/
      In s (map (fun kr => name (snd kr)) (strategic_regions self)))) /\
  (infinite lat \/ infinite lon -> strategic_regions self <> [] ->
   classify_outcome self lat lon course = inl ValueError).
Proof.
  destruct (is_heading_m_outcome self lat lon course)
    as (o & Hrun & _ & Hcases & Hinf).
  unfold classify_outcome. rewrite Hrun. cbn [fst].
  split; [| split].
  - destruct o as [e | s]; [| discriminate].
    destruct Hcases as [-> _]. discriminate.
  - intros Hlat Hlon. destruct o as [e | s].
    + destruct Hcases as [_ [H | H]]; contradiction.
    + exists s. split; [reflexivity | exact Hcases].
  - exact Hinf.
Qed.

(** C2, counterexample to the claim as stated: the course 360 is outside
    [0, 360), and the call returns "Middle East" instead of failing. *)
Lemma classify_accepts_course_360 :
  ~ valid_course 360 /\
  classify_outcome (init None) (Fin 20.5) (Fin 40.2) (Fin 360)
    = inr "Middle East"%string /\
  classify_outcome (init None) (Fin 20.5) (Fin 40.2) (Fin 360)
    <> inl InvalidInput.
Proof.
  assert (E : classify_outcome (init None) (Fin 20.5) (Fin 40.2) (Fin 360)
              = inr "Middle East"%string).
  { unfold classify_outcome, invoke_classify, is_heading_to_strategic_region_m,
      bind, get_strategic_regions.
    rewrite heading_loop_m_finite. cbn [fst init strategic_regions].
    rewrite red_sea_course_360. reflexivity. }
  split; [unfold valid_course; lra |].
  split; [exact E | rewrite E; discriminate].
Qed.

(** C3, as amended.  With the configured regions, a vessel at latitude 20.5,
    longitude 40.2 on course 180 is classified "Other Operations": the
    bearings to the three centers are about 38, 131 and 68 degrees, none
    within 45 degrees of 180. *)
Theorem red_sea_southbound_is_other (key : option string) (speed : R) :
  classify (init key) (mkVessel (mkPoint 20.5 40.2) 180 speed)
  = "Other Operations"%string.
Proof. rewrite classify_init. exact red_sea_course_180. Qed.

(** C3, counterexample to the claim as stated. *)
Lemma red_sea_southbound_not_middle_east :
  classify (init None) (mkVessel (mkPoint 20.5 40.2) 180 18.5)
  <> "Middle East"%string.
Proof.
  rewrite classify_init, red_sea_course_180. discriminate.
Qed.

(** C4, as amended.  The same vessel on course 0 is classified
    "Middle East": the bearing to that center, about 38 degrees, is within
    45 degrees of due north. *)
Theorem red_sea_northbound_is_middle_east (key : option string) (speed : R) :
  classify (init key) (mkVessel (mkPoint 20.5 40.2) 0 speed)
  = "Middle East"%string.
Proof. rewrite classify_init. exact red_sea_course_0. Qed.

(** C4, counterexample to the claim as stated. *)
Lemma red_sea_northbound_not_other :
  classify (init None) (mkVessel (mkPoint 20.5 40.2) 0 18.5)
  <> "Other Operations"%string.
Proof.
  rewrite classify_init, red_sea_course_0. discriminate.
Qed.

(** C5.  For every pair of valid points the bearing, the [atan2] of the
    standard spherical components turned to degrees and normalised, lies in
    the half-open interval [0, 360). *)
Theorem initialBearing_range (from to : GeoPoint) :
  valid_point from -> valid_point to ->
  initialBearing from to =
    Py.fmod (Py.degrees (Py.atan2 (bearing_east from to) (bearing_north from to))
             + 360) 360 /\
  0 <= initialBearing from to < 360.
Proof.
  intros _ _. split; [reflexivity |].
  rewrite initialBearing_components. apply bearing_range.
Qed.

(** C5, witness: from the Red Sea reading to the point 26 N, 45 E. *)
Lemma initialBearing_range_witness :
  0 <= initialBearing red_sea (mkPoint 26 45) < 360.
Proof.
  apply (initialBearing_range red_sea (mkPoint 26 45));
    unfold valid_point, red_sea; cbn [latitude longitude]; lra.
Defined.

(** C6.  The bearing from a point to itself is 0: both components vanish
    and [atan2(0, 0)] is 0. *)
Theorem initialBearing_same_point (p : GeoPoint) : initialBearing p p = 0.
Proof.
  rewrite initialBearing_components.
  assert (E : bearing_east p p = 0).
  { unfold bearing_east. rewrite Rminus_diag, sin_0. apply Rmult_0_l. }
  assert (N : bearing_north p p = 0).
  { unfold bearing_north. rewrite Rminus_diag, cos_0. ring. }
  rewrite E, N, atan2_origin, degrees_0.
  apply fmod_360_shift. lra.
Qed.

(** C7.  The quantizer at the course -45 and at its wrapped value
    [-45 % 360 = 315]: truncation toward zero sends -0.5 to index 0, the
    north arrow, while 315 gets index 7, the north-west arrow.  So the
    course is not wrapped there. *)
Theorem arrow_not_cyclic_at_minus_45 (self : VisualCarrierTracker) :
  Py.fmod (-45) 360 = 315 /\
  calculate_direction_arrow self (-45) = Some (arrow_of North) /\
  calculate_direction_arrow self (Py.fmod (-45) 360) = Some (arrow_of NorthWest) /\
  calculate_direction_arrow self (-45) <> calculate_direction_arrow self 315.
Proof.
  rewrite fmod_minus_45, arrow_minus_45, arrow_315.
  repeat split. discriminate.
Qed.

(** C8.  For a course in [0, 360) the quantizer returns the entry of the
    fixed list N, NE, E, SE, S, SW, W, NW at index
    floor((course + 22.5) / 45) mod 8; the course 0 gives the N symbol and
    the course 45 the NE symbol. *)
Theorem arrow_index_formula (self : VisualCarrierTracker) (c : R) :
  valid_course c ->
  directions = map arrow_of compass_order /\
  calculate_direction_arrow self c =
    nth_error directions (Z.to_nat (Zfloor ((c + 22.5) / 45) mod 8)) /\
  calculate_direction_arrow self 0 = Some (arrow_of North) /\
  calculate_direction_arrow self 45 = Some (arrow_of NorthEast).
Proof.
  intros [lo hi].
  split; [exact directions_compass |].
  split; [| split; [apply arrow_0 | apply arrow_45]].
  unfold calculate_direction_arrow.
  rewrite direction_index_floor by lra.
  apply getitem_directions. apply Z.mod_pos_bound. lia.
Qed.

(** C8, witness: the course 200 falls in the sector of index 4. *)
Lemma arrow_index_formula_witness :
  calculate_direction_arrow (init None) 200 =
    nth_error directions (Z.to_nat (Zfloor ((200 + 22.5) / 45) mod 8)).
Proof.
  apply (arrow_index_formula (init None) 200).
  unfold valid_course. lra.
Defined.

(** C9.  The classifier reads the region list of its receiver and
    nothing else of it, and assigns to nothing: for all float arguments, two
    receivers with the same region list give the same outcome (value or
    exception) whatever their other attributes, the receiver left by a call
    is the receiver it was given, and a second call on it gives the same
    outcome again. *)
Theorem classify_deterministic (self1 self2 : VisualCarrierTracker)
    (lat lon course : PyFloat) :
  strategic_regions self1 = strategic_regions self2 ->
  fst (invoke_classify self1 lat lon course)
    = fst (invoke_classify self2 lat lon course) /\
  snd (invoke_classify self1 lat lon course) = self1 /\
  invoke_classify (snd (invoke_classify self1 lat lon course)) lat lon course
    = invoke_classify self1 lat lon course.
Proof.
  intros E.
  destruct (is_heading_m_outcome self1 lat lon course)
    as (o & Hrun & Hframe & _).
  rewrite (Hframe self2 (eq_sym E)), Hrun. cbn [fst snd].
  rewrite Hrun. repeat split.
Qed.

(** C9, witness: two trackers built with different keys. *)
Lemma classify_deterministic_witness :
  fst (invoke_classify (init None) (Fin 20.5) (Fin 40.2) (Fin 180)) =
  fst (invoke_classify (init (Some "key"%string))
         (Fin 20.5) (Fin 40.2) (Fin 180)).
Proof.
  apply (classify_deterministic (init None) (init (Some "key"%string))
           (Fin 20.5) (Fin 40.2) (Fin 180)).
  reflexivity.
Defined.

(** C10.  For every real course the index is in [0, 8), the lookup is in
    bounds and the quantizer returns one of the eight symbols. *)
Theorem arrow_total (self : VisualCarrierTracker) (c : R) :
  (0 <= direction_index c < 8)%Z /\
  exists s, calculate_direction_arrow self c = Some s /\ In s directions.
Proof.
  pose proof (direction_index_range c) as Hi.
  split; [exact Hi |].
  unfold calculate_direction_arrow.
  destruct (getitem_directions _ Hi) as [E (s & Hs & Hin)].
  exists s. split; [rewrite E; exact Hs | exact Hin].
Qed.

(** * Further properties of the quantizer, the bearing and the classifier *)

(** X1.  Each arrow covers the sector centred on its compass point, also
    past 360: a course within 22 degrees of [45 * k], for [k] from 0 to a
    million, gets the entry [k mod 8] of the list. *)
Theorem arrow_sector (self : VisualCarrierTracker) (c : R) (k : Z) :
  (0 <= k <= 1000000)%Z ->
  45 * IZR k - 22 <= c <= 45 * IZR k + 22 ->
  calculate_direction_arrow self c = nth_error directions (Z.to_nat (k mod 8)).
Proof.
  intros [Hk _] [lo hi]. apply arrow_at; [exact Hk | split; lra].
Qed.

Lemma arrow_sector_witness :
  calculate_direction_arrow (init None) 460 =
  nth_error directions (Z.to_nat (10 mod 8)).
Proof.
  apply (arrow_sector (init None) 460 10); [lia | simpl; lra].
Defined.

(** X2.  On those courses the quantizer is cyclic: a course within 22
    degrees of [45 * k], for [k] from 0 to a million, gets the same arrow as
    its remainder modulo 360. *)
Theorem arrow_cyclic_on_sectors (self : VisualCarrierTracker) (c : R) (k : Z) :
  (0 <= k <= 1000000)%Z ->
  45 * IZR k - 22 <= c <= 45 * IZR k + 22 ->
  calculate_direction_arrow self c =
  calculate_direction_arrow self (Py.fmod c 360).
Proof.
  intros [Hk _] [lo hi]. apply arrow_wraps_above.
  apply IZR_le in Hk. lra.
Qed.

Lemma arrow_cyclic_on_sectors_witness :
  calculate_direction_arrow (init None) 725 =
  calculate_direction_arrow (init None) (Py.fmod 725 360).
Proof.
  apply (arrow_cyclic_on_sectors (init None) 725 16); [lia | simpl; lra].
Defined.

(** X3.  On negative courses the quantizer is off by one sector: a course
    within 22 degrees of [-45 * j], for [j] from 1 to a million, gets the
    entry [(1 - j) mod 8] of the list, because [int] rounds toward zero,
    while its remainder modulo 360 gets the entry [(- j) mod 8]. *)
Theorem arrow_negative_course_shifted (self : VisualCarrierTracker)
    (c : R) (j : Z) :
  (1 <= j <= 1000000)%Z ->
  - 45 * IZR j - 22 <= c <= - 45 * IZR j + 22 ->
  calculate_direction_arrow self c =
    nth_error directions (Z.to_nat ((1 - j) mod 8)) /\
  calculate_direction_arrow self (Py.fmod c 360) =
    nth_error directions (Z.to_nat ((- j) mod 8)).
Proof.
  intros [Hj _] [lo hi].
  assert (J : 1 <= IZR j) by (apply IZR_le in Hj; exact Hj).
  assert (X : IZR (- j) <= (c + 22.5) / 45 < IZR (- j) + 1)
    by (rewrite opp_IZR; split; lra).
  unfold calculate_direction_arrow. split.
  - assert (E : direction_index c = ((1 - j) mod 8)%Z).
    { unfold direction_index, Py.imod. rewrite int_neg by lra.
      rewrite (Zceil_eq (1 - j));
        [reflexivity | rewrite minus_IZR, opp_IZR in *; lra]. }
    rewrite E. apply getitem_directions. apply Z.mod_pos_bound. lia.
  - pose proof (fmod_360_range c) as [rlo rhi].
    rewrite (direction_index_floor (Py.fmod c 360)) by lra.
    set (q := Zfloor (c / 360)).
    replace ((Py.fmod c 360 + 22.5) / 45)
      with ((c + 22.5) / 45 + IZR (- q * 8))
      by (unfold Py.fmod; fold q; rewrite mult_IZR, opp_IZR; lra).
    rewrite Zfloor_addz, (Zfloor_eq (- j) _ X), Z.mod_add by lia.
    apply getitem_directions. apply Z.mod_pos_bound. lia.
Qed.

Lemma arrow_negative_course_shifted_witness :
  calculate_direction_arrow (init None) (-45) =
    nth_error directions (Z.to_nat ((1 - 1) mod 8)) /\
  calculate_direction_arrow (init None) (Py.fmod (-45) 360) =
    nth_error directions (Z.to_nat ((- 1) mod 8)).
Proof.
  apply (arrow_negative_course_shifted (init None) (-45) 1); [lia | simpl; lra].
Defined.

(** X4.  Along a meridian the bearing is exact: a target on the same
    longitude less than 180 degrees of latitude to the north is at bearing
    0, one to the south at bearing 180. *)
Theorem bearing_meridian (lat1 lat2 lon : R) :
  (0 < lat2 - lat1 < 180 ->
   initialBearing (mkPoint lat1 lon) (mkPoint lat2 lon) = 0) /\
  (0 < lat1 - lat2 < 180 ->
   initialBearing (mkPoint lat1 lon) (mkPoint lat2 lon) = 180).
Proof.
  assert (E : bearing_east (mkPoint lat1 lon) (mkPoint lat2 lon) = 0).
  { unfold bearing_east. cbn [latitude longitude].
    rewrite Rminus_diag, sin_0. apply Rmult_0_l. }
  assert (N : bearing_north (mkPoint lat1 lon) (mkPoint lat2 lon)
              = sin (Py.radians lat2 - Py.radians lat1)).
  { unfold bearing_north. cbn [latitude longitude].
    rewrite Rminus_diag, cos_0, sin_minus. ring. }
  assert (D : Py.radians lat2 - Py.radians lat1 = (lat2 - lat1) / 180 * PI).
  { unfold Py.radians. lra. }
  pose proof PI_RGT_0 as Hpi.
  rewrite initialBearing_components, E, N, D.
  split; intros [lo hi].
  - assert (A : 0 < (lat2 - lat1) / 180 * PI < PI) by (split; nra).
    rewrite atan2_pos_x by (apply sin_gt_0; lra).
    unfold Rdiv at 1. rewrite Rmult_0_l, atan_0, degrees_0.
    apply fmod_360_shift. lra.
  - assert (A : - PI < (lat2 - lat1) / 180 * PI < 0) by (split; nra).
    rewrite atan2_neg_x by (try apply sin_lt_0_var; lra).
    unfold Rdiv at 1. rewrite Rmult_0_l, atan_0, Rplus_0_l.
    replace PI with (1 * PI) at 1 by ring.
    rewrite degrees_PI_frac. rewrite fmod_360_shift; lra.
Qed.

(** X5.  Along the equator the bearing is exact: a target less than 180
    degrees of longitude to the east is at bearing 90, one to the west at
    bearing 270. *)
Theorem bearing_equator (lon1 lon2 : R) :
  (0 < lon2 - lon1 < 180 ->
   initialBearing (mkPoint 0 lon1) (mkPoint 0 lon2) = 90) /\
  (0 < lon1 - lon2 < 180 ->
   initialBearing (mkPoint 0 lon1) (mkPoint 0 lon2) = 270).
Proof.
  assert (Z0 : Py.radians 0 = 0) by (unfold Py.radians; lra).
  assert (E : bearing_east (mkPoint 0 lon1) (mkPoint 0 lon2)
              = sin ((lon2 - lon1) / 180 * PI)).
  { unfold bearing_east. cbn [latitude longitude]. rewrite Z0, cos_0.
    rewrite Rmult_1_r. f_equal. unfold Py.radians. lra. }
  assert (N : bearing_north (mkPoint 0 lon1) (mkPoint 0 lon2) = 0).
  { unfold bearing_north. cbn [latitude longitude]. rewrite Z0, sin_0. ring. }
  pose proof PI_RGT_0 as Hpi.
  rewrite initialBearing_components, E, N.
  split; intros [lo hi].
  - assert (A : 0 < (lon2 - lon1) / 180 * PI < PI) by (split; nra).
    assert (S : 0 < sin ((lon2 - lon1) / 180 * PI)) by (apply sin_gt_0; lra).
    unfold Py.atan2.
    destruct (total_order_T 0 0) as [[lt | _] | gt]; try lra.
    destruct (total_order_T _ 0) as [[lt | eq] | gt]; try lra.
    replace (PI / 2) with (1 / 2 * PI) by lra.
    rewrite degrees_PI_frac. rewrite fmod_360_shift; lra.
  - assert (A : - PI < (lon2 - lon1) / 180 * PI < 0) by (split; nra).
    assert (S : sin ((lon2 - lon1) / 180 * PI) < 0)
      by (apply sin_lt_0_var; lra).
    unfold Py.atan2.
    destruct (total_order_T 0 0) as [[lt | _] | gt]; try lra.
    destruct (total_order_T _ 0) as [[lt | eq] | gt]; try lra.
    replace (- (PI / 2)) with (- 1 / 2 * PI) by lra.
    rewrite degrees_PI_frac. rewrite fmod_360_neg; lra.
Qed.

Lemma circularDiff_far_course c b :
  0 <= b < 360 -> 675 <= c \/ c <= -315 -> circularDiff c b <= 45.
Proof.
  intros [lo hi] Hc. unfold circularDiff, Rmin.
  destruct (Rle_dec _ _); unfold Rabs in *; destruct (Rcase_abs _); lra.
Qed.

(** X6.  A course of 675 or more, or of -315 or less, is at least 315 away
    from every bearing, so [360 - diff] is at most 45: whatever the
    position, the first region of the list is returned. *)
Theorem far_course_hits_first_region (self : VisualCarrierTracker)
    (key : string) (r : Region) (rest : list (string * Region))
    (lat lon c : R) :
  strategic_regions self = (key, r) :: rest ->
  675 <= c \/ c <= -315 ->
  is_heading_to_strategic_region self lat lon c = name r.
Proof.
  intros E Hc. unfold is_heading_to_strategic_region. rewrite E.
  apply heading_loop_hit. apply circularDiff_far_course; [| exact Hc].
  rewrite initialBearing_components. apply bearing_range.
Qed.

Lemma far_course_hits_first_region_witness :
  is_heading_to_strategic_region (init None) (-33.9) 151.2 720
  = "Middle East"%string.
Proof.
  apply (far_course_hits_first_region (init None) "middle_east"
           (mkRegion "Middle East" (mkBounds 40 12 65 25) "red")
           [ ("indian_ocean"%string,
              mkRegion "Indian Ocean" (mkBounds 25 (-40) 100 40) "blue");
             ("east_asia"%string,
              mkRegion "East Asia/Western Pacific" (mkBounds 50 0 150 100)
                "green") ]
           (-33.9) 151.2 720);
    [reflexivity | left; lra].
Defined.

(** X7.  Scanning a list extended at the end: when a region of the first
    part matches, the regions appended after it are never looked at; when
    none matches, the scan continues with the appended part. *)
Theorem heading_loop_append (l1 l2 : list (string * Region)) (v : VesselState) :
  let scan items :=
    heading_loop items (latitude (position v)) (longitude (position v))
      (course v) in
  (Exists (fun kr => heads_toward v 45 (snd kr)) l1 ->
   scan (l1 ++ l2) = scan l1) /\
  (Forall (fun kr => ~ heads_toward v 45 (snd kr)) l1 ->
   scan (l1 ++ l2) = scan l2).
Proof.
  cbv zeta. induction l1 as [| [key r] rest [IHhit IHmiss]].
  - split; [intros H; inversion H | intros _; reflexivity].
  - cbn [app]. rewrite !heading_loop_cons, vessel_eta.
    destruct (Rle_dec _ 45) as [hit | miss].
    + split; [reflexivity |].
      intros H. inversion H as [| ? ? Hr Hrest]. contradiction.
    + split.
      * intros H. inversion H as [? ? Hr | ? ? Hrest]; [contradiction |].
        apply IHhit. exact Hrest.
      * intros H. inversion H as [| ? ? Hr Hrest]. apply IHmiss. exact Hrest.
Qed.

(** X8.  For a course in [0, 360) the test of the loop is the true angular
    test: a region matches exactly when course and bearing differ by at most
    45 degrees up to a whole number of turns. *)
Theorem heads_toward_angular (v : VesselState) (r : Region) :
  valid_course (course v) ->
  (heads_toward v 45 r <->
   exists k : Z,
     Rabs (course v - initialBearing (position v) (region_center (bounds r))
           + 360 * IZR k) <= 45).
Proof.
  intros [clo chi]. unfold heads_toward.
  set (b := initialBearing (position v) (region_center (bounds r))).
  assert (Hb : 0 <= b < 360)
    by (unfold b; rewrite initialBearing_components; apply bearing_range).
  destruct Hb as [blo bhi]. set (c := course v) in *.
  split.
  - intros H. unfold circularDiff, Rmin in H.
    destruct (Rle_dec _ _) as [le | gt].
    + exists 0%Z. rewrite Rmult_0_r, Rplus_0_r. exact H.
    + destruct (Rle_dec b c) as [bc | cb].
      * exists (-1)%Z. unfold Rabs in *.
        destruct (Rcase_abs (c - b)); destruct (Rcase_abs _); lra.
      * exists 1%Z. unfold Rabs in *.
        destruct (Rcase_abs (c - b)); destruct (Rcase_abs _); lra.
  - intros [k Hk].
    assert (K : (-1 <= k <= 1)%Z).
    { assert (L : -2 < IZR k < 2).
      { unfold Rabs in Hk. destruct (Rcase_abs _); split; lra. }
      destruct L as [L1 L2].
      apply (lt_IZR (-2) k) in L1. apply (lt_IZR k 2) in L2. lia. }
    assert (C : k = (-1)%Z \/ k = 0%Z \/ k = 1%Z) by lia.
    unfold circularDiff, Rmin.
    destruct C as [-> | [-> | ->]];
      destruct (Rle_dec _ _); unfold Rabs in *;
      destruct (Rcase_abs (c - b)); destruct (Rcase_abs _); lra.
Qed.

Lemma heads_toward_angular_witness :
  heads_toward (mkVessel red_sea 0 18.5) 45
    (mkRegion "Middle East" middle_east_box "red") <->
  exists k : Z,
    Rabs (0 - initialBearing red_sea (region_center middle_east_box)
          + 360 * IZR k) <= 45.
Proof.
  apply (heads_toward_angular (mkVessel red_sea 0 18.5)
           (mkRegion "Middle East" middle_east_box "red")).
  unfold valid_course. cbn [course]. lra.
Defined.

(** * The map loop and the report *)

Lemma arrow_some self c : exists s, calculate_direction_arrow self c = Some s.
Proof.
  unfold calculate_direction_arrow.
  destruct (getitem_directions _ (direction_index_range c)) as [E (s & Hs & _)].
  exists s. rewrite E. exact Hs.
Qed.

(** The loop with its accumulator and early exits, as one expression. *)
Lemma carrier_loop_spec self http now carriers acc :
  carrier_loop self http now carriers acc =
  if existsb (unstamped self http now) carriers
  then inl RaisedTypeError
  else inr (acc ++ entries_of self http now carriers).
Proof.
  revert acc. induction carriers as [| [n m] rest IH]; intros acc.
  - cbn. rewrite app_nil_r. reflexivity.
  - cbn [carrier_loop existsb entries_of flat_map].
    unfold unstamped at 1, usable_reading. cbn [fst snd].
    destruct (get_vessel_position self http now m) as [p |];
      [| rewrite IH; reflexivity].
    destruct (truthy (pos_lat p)) as [lat |]; [| rewrite IH; reflexivity].
    destruct (truthy (pos_lon p)) as [lon |]; [| rewrite IH; reflexivity].
    destruct (arrow_some self (or_zero (pos_course p))) as [a Ea]. rewrite Ea.
    destruct (pos_timestamp p) as [ts |]; [| reflexivity].
    rewrite IH. cbn [orb entry_for app].
    destruct (existsb _ rest); [reflexivity |].
    rewrite <- app_assoc. reflexivity.
Qed.

Lemma create_carrier_map_spec self http now :
  create_carrier_map self http now =
  if existsb (unstamped self http now) (carrier_mmsi self)
  then inl RaisedTypeError
  else inr (entries_of self http now (carrier_mmsi self)).
Proof. unfold create_carrier_map. rewrite carrier_loop_spec. reflexivity. Qed.

Lemma truthy_nonzero x v : truthy x = Some v -> x = Some v /\ v <> 0.
Proof.
  unfold truthy. destruct x as [w |]; [| discriminate].
  destruct (Req_dec_T w 0); [discriminate |].
  intros E. injection E as <-. split; [reflexivity | assumption].
Qed.

Lemma truthy_of_nonzero v : v <> 0 -> truthy (Some v) = Some v.
Proof.
  intros H. unfold truthy. destruct (Req_dec_T v 0); [contradiction | reflexivity].
Qed.

Lemma entries_of_In self http now carriers e :
  In e (entries_of self http now carriers) ->
  exists n m reading,
    In (n, m) carriers /\
    usable_reading self http now m = Some reading /\
    e = entry_for self n reading.
Proof.
  unfold entries_of. rewrite in_flat_map.
  intros [[n m] [Hin He]]. cbn [fst snd] in He.
  destruct (usable_reading self http now m) as [rd |] eqn:U; [| contradiction].
  destruct He as [<- | []]. exists n, m, rd. auto.
Qed.

Lemma entries_of_names self http now carriers :
  map entry_name (entries_of self http now carriers) =
  map fst (filter (fun c => has_fix self http now (snd c)) carriers).
Proof.
  induction carriers as [| [n m] rest IH]; [reflexivity |].
  cbn [entries_of flat_map filter fst snd]. unfold has_fix at 1.
  fold (entries_of self http now rest).
  destruct (usable_reading self http now m) as [[[p la] lo] |].
  - cbn. rewrite IH. reflexivity.
  - cbn. exact IH.
Qed.

Lemma usable_reading_inv self http now m p lat lon :
  usable_reading self http now m = Some (p, lat, lon) ->
  get_vessel_position self http now m = Some p /\
  truthy (pos_lat p) = Some lat /\ truthy (pos_lon p) = Some lon.
Proof.
  unfold usable_reading.
  destruct (get_vessel_position self http now m) as [q |]; [| discriminate].
  destruct (truthy (pos_lat q)) as [la |] eqn:A; [| discriminate].
  destruct (truthy (pos_lon q)) as [lo |] eqn:B; [| discriminate].
  intros E. injection E as <- <- <-. auto.
Qed.

Lemma existsb_unstamped self http now carriers :
  existsb (unstamped self http now) carriers = true <->
  exists n m p lat lon,
    In (n, m) carriers /\
    get_vessel_position self http now m = Some p /\
    truthy (pos_lat p) = Some lat /\ truthy (pos_lon p) = Some lon /\
    pos_timestamp p = None.
Proof.
  rewrite existsb_exists. split.
  - intros [[n m] [Hin U]]. unfold unstamped in U. cbn [snd] in U.
    destruct (usable_reading self http now m) as [[[p la] lo] |] eqn:R;
      [| discriminate].
    destruct (pos_timestamp p) eqn:T; [discriminate |].
    apply usable_reading_inv in R. destruct R as (G & A & B).
    exists n, m, p, la, lo. auto.
  - intros (n & m & p & la & lo & Hin & G & A & B & T).
    exists (n, m). split; [exact Hin |].
    unfold unstamped, usable_reading. cbn [snd]. rewrite G, A, B, T. reflexivity.
Qed.

(** X9.  What every entry of a returned [carriers_data] satisfies: its
    latitude and longitude are both non-zero (a reading on the equator or on
    the prime meridian is skipped), its target region is the classifier's
    answer for its own position and course, and its name is one of the
    configured carriers; and there are at most as many entries as
    carriers. *)
Theorem map_entries_invariant (self : VisualCarrierTracker)
    (session_get : string -> HttpOutcome) (now : string) :
  match create_carrier_map self session_get now with
  | inr carriers_data =>
      Forall
        (fun e =>
           fst (entry_position e) <> 0 /\ snd (entry_position e) <> 0 /\
           entry_target_region e =
             is_heading_to_strategic_region self
               (fst (entry_position e)) (snd (entry_position e))
               (entry_course e) /\
           exists mmsi, In (entry_name e, mmsi) (carrier_mmsi self))
        carriers_data /\
      (List.length carriers_data <= List.length (carrier_mmsi self))%nat
  | inl _ => True
  end.
Proof.
  rewrite create_carrier_map_spec.
  destruct (existsb _ _); [exact I |]. split.
  - apply Forall_forall. intros e He.
    apply entries_of_In in He.
    destruct He as (n & m & [[p la] lo] & Hin & U & ->).
    apply usable_reading_inv in U. destruct U as (_ & A & B).
    apply truthy_nonzero in A. apply truthy_nonzero in B.
    cbn [entry_for entry_position entry_target_region entry_course entry_name
         fst snd].
    repeat split; try tauto. exists m. exact Hin.
  - rewrite <- (length_map entry_name), entries_of_names, length_map.
    apply filter_length_le.
Qed.

(** X10.  One reading without a timestamp aborts the whole map: when any
    configured carrier has a reading with true latitude and longitude but
    no timestamp, the call raises and returns no [carriers_data] at all,
    whatever the readings of the other carriers. *)
Theorem map_fails_without_timestamp (self : VisualCarrierTracker)
    (session_get : string -> HttpOutcome) (now : string) :
  (exists carrier_name mmsi position lat lon,
     In (carrier_name, mmsi) (carrier_mmsi self) /\
     get_vessel_position self session_get now mmsi = Some position /\
     truthy (pos_lat position) = Some lat /\
     truthy (pos_lon position) = Some lon /\
     pos_timestamp position = None) ->
  exists e, create_carrier_map self session_get now = inl e.
Proof.
  intros H. apply existsb_unstamped in H.
  rewrite create_carrier_map_spec, H. exists RaisedTypeError. reflexivity.
Qed.

(** X10, witness: a service that answers every request with one vessel at
    1 N, 2 E and no timestamp. *)
Lemma map_fails_without_timestamp_witness :
  exists e,
    create_carrier_map (init (Some "live-key"%string))
      (fun _ => HttpStatus 200
                  (Some [mkVesselJson (Some 1) (Some 2) None None None]))
      "2024-01-15T00:00:00" = inl e.
Proof.
  apply (map_fails_without_timestamp (init (Some "live-key"%string))
           (fun _ => HttpStatus 200
                       (Some [mkVesselJson (Some 1) (Some 2) None None None]))
           "2024-01-15T00:00:00").
  exists "USS Gerald R. Ford"%string, "368123000"%string,
    (mkPosition "368123000" (Some 1) (Some 2) None None None), 1, 2.
  split; [left; reflexivity |].
  split; [reflexivity |].
  cbn [pos_lat pos_lon pos_timestamp].
  split; [apply truthy_of_nonzero; lra |].
  split; [apply truthy_of_nonzero; lra | reflexivity].
Defined.

(** X11.  A returned [carriers_data] lists, in the order of the carrier
    table, exactly the carriers that have a reading with true latitude and
    longitude. *)
Theorem map_names_in_order (self : VisualCarrierTracker)
    (session_get : string -> HttpOutcome) (now : string) :
  match create_carrier_map self session_get now with
  | inr carriers_data =>
      map entry_name carriers_data =
      map fst (filter (fun c => has_fix self session_get now (snd c))
                 (carrier_mmsi self))
  | inl _ => True
  end.
Proof.
  rewrite create_carrier_map_spec.
  destruct (existsb _ _); [exact I | apply entries_of_names].
Qed.

(** ** With the placeholder key: the mock table *)

Lemma mock_nonzero m lat lon c :
  dict_get mock_positions m = Some (lat, lon, c) -> lat <> 0 /\ lon <> 0.
Proof.
  unfold mock_positions. cbn [dict_get].
  repeat (destruct (String.eqb m _);
          [intros E; injection E as <- <- <-; split; lra |]).
  discriminate.
Qed.

Lemma mock_usable self http now m :
  api_key self = default_api_key ->
  usable_reading self http now m =
  match dict_get mock_positions m with
  | Some (lat, lon, c) =>
      Some (mkPosition m (Some lat) (Some lon) (Some c) (Some 18.5) (Some now),
            lat, lon)
  | None => None
  end.
Proof.
  intros K. unfold usable_reading, get_vessel_position.
  rewrite K, String.eqb_refl.
  destruct (dict_get mock_positions m) as [[[lat lon] c] |] eqn:D;
    [| reflexivity].
  destruct (mock_nonzero _ _ _ _ D) as [Hlat Hlon].
  cbn [pos_lat pos_lon]. rewrite !truthy_of_nonzero by assumption. reflexivity.
Qed.

Lemma mock_stamped self http now carriers :
  api_key self = default_api_key ->
  existsb (unstamped self http now) carriers = false.
Proof.
  intros K. induction carriers as [| [n m] rest IH]; [reflexivity |].
  cbn [existsb]. rewrite IH, Bool.orb_false_r.
  unfold unstamped. cbn [snd]. rewrite mock_usable by exact K.
  destruct (dict_get mock_positions m) as [[[lat lon] c] |]; reflexivity.
Qed.

Lemma mock_entries self http now http' now' carriers :
  api_key self = default_api_key ->
  entries_of self http now carriers = entries_of self http' now' carriers.
Proof.
  intros K. induction carriers as [| [n m] rest IH]; [reflexivity |].
  cbn [entries_of flat_map fst snd].
  fold (entries_of self http now rest). fold (entries_of self http' now' rest).
  rewrite IH, !mock_usable by exact K.
  destruct (dict_get mock_positions m) as [[[lat lon] c] |]; reflexivity.
Qed.

Lemma mock_has_fix self http now m :
  api_key self = default_api_key -> has_fix self http now m = has_mock m.
Proof.
  intros K. unfold has_fix, has_mock. rewrite mock_usable by exact K.
  destruct (dict_get mock_positions m) as [[[lat lon] c] |]; reflexivity.
Qed.

(** X12.  With the placeholder key the map is built from the mock table
    alone: the call succeeds, it lists in order the carriers whose MMSI is in
    the table, and the result is the same whatever the network answers and
    whatever the time is. *)
Theorem mock_mode_map (self : VisualCarrierTracker)
    (session_get : string -> HttpOutcome) (now : string) :
  api_key self = default_api_key ->
  exists carriers_data,
    create_carrier_map self session_get now = inr carriers_data /\
    map entry_name carriers_data =
      map fst (filter (fun c => has_mock (snd c)) (carrier_mmsi self)) /\
    forall session_get' now',
      create_carrier_map self session_get' now' = inr carriers_data.
Proof.
  intros K. exists (entries_of self session_get now (carrier_mmsi self)).
  split; [| split].
  - rewrite create_carrier_map_spec, mock_stamped by exact K. reflexivity.
  - rewrite entries_of_names. f_equal. apply filter_ext.
    intros [n m]. apply mock_has_fix. exact K.
  - intros http' now'.
    rewrite create_carrier_map_spec, mock_stamped by exact K.
    f_equal. apply mock_entries. exact K.
Qed.

(** X12, witness: the tracker built without a key lists all six carriers. *)
Lemma mock_mode_map_witness :
  exists carriers_data,
    create_carrier_map (init None) (fun _ => HttpRaised) "2024-01-15T00:00:00"
      = inr carriers_data /\
    map entry_name carriers_data = map fst default_carrier_mmsi.
Proof.
  destruct (mock_mode_map (init None) (fun _ => HttpRaised)
              "2024-01-15T00:00:00" eq_refl) as (out & E & N & _).
  exists out. split; [exact E | exact N].
Defined.

(** ** With a key of one's own: the network *)

Lemma no_vessel_no_reading self http now m :
  api_key self <> default_api_key ->
  (forall url, no_vessel (http url)) ->
  usable_reading self http now m = None.
Proof.
  intros K H. unfold usable_reading, get_vessel_position.
  apply String.eqb_neq in K. rewrite K.
  specialize (H (vessel_url self m)).
  destruct (http (vessel_url self m)) as [| code [[| v vs] |]];
    try reflexivity; destruct (Z.eqb_spec code 200); try reflexivity.
  cbn in H. contradiction.
Qed.

(** X13.  With a key of one's own, when every request raises, answers with
    a status other than 200, or carries no vessel list or an empty one, the
    map is built without error and [carriers_data] is empty. *)
Theorem network_down_empty_map (self : VisualCarrierTracker)
    (session_get : string -> HttpOutcome) (now : string) :
  api_key self <> default_api_key ->
  (forall url, no_vessel (session_get url)) ->
  create_carrier_map self session_get now = inr [].
Proof.
  intros K H. rewrite create_carrier_map_spec.
  assert (U : forall m, usable_reading self session_get now m = None)
    by (intros m; apply no_vessel_no_reading; assumption).
  assert (A : forall cs, existsb (unstamped self session_get now) cs = false
                         /\ entries_of self session_get now cs = []).
  { induction cs as [| [n m] rest [IH1 IH2]]; [split; reflexivity |].
    cbn [existsb entries_of flat_map fst snd].
    fold (entries_of self session_get now rest).
    rewrite IH1, IH2. unfold unstamped. cbn [snd]. rewrite U.
    split; reflexivity. }
  destruct (A (carrier_mmsi self)) as [-> ->]. reflexivity.
Qed.

Lemma network_down_empty_map_witness :
  create_carrier_map (init (Some "live-key"%string))
    (fun _ => HttpStatus 503 None) "2024-01-15T00:00:00" = inr [].
Proof.
  apply (network_down_empty_map (init (Some "live-key"%string))
           (fun _ => HttpStatus 503 None) "2024-01-15T00:00:00").
  - cbn. discriminate.
  - intros url. exact I.
Defined.

(** ** Colours and the report *)

Lemma default_targets lat lon c :
  let t := heading_loop default_strategic_regions lat lon c in
  t = "Middle East"%string \/ t = "Indian Ocean"%string \/
  t = "East Asia/Western Pacific"%string \/ t = "Other Operations"%string.
Proof.
  cbv zeta.
  pose proof (heading_loop_codomain default_strategic_regions lat lon c) as H.
  set (t := heading_loop default_strategic_regions lat lon c) in *.
  clearbody t. destruct H as [E | H].
  - right; right; right. exact E.
  - cbn in H. destruct H as [H | [H | [H | []]]]; rewrite <- H; auto.
Qed.

(** X14.  With the configured regions the marker colour picked through
    [color_map] is always the colour configured for the region the vessel
    is classified into (the colour of its rectangle), and gray for
    "Other Operations". *)
Theorem marker_color_matches_region (key : option string) (lat lon c : R) :
  let target := is_heading_to_strategic_region (init key) lat lon c in
  marker_color target = region_color (strategic_regions (init key)) target /\
  (target = "Other Operations"%string -> marker_color target = "gray"%string).
Proof.
  cbv zeta. unfold is_heading_to_strategic_region. cbn [init strategic_regions].
  destruct (default_targets lat lon c) as [E | [E | [E | E]]];
    rewrite E; split; try reflexivity; discriminate.
Qed.

Lemma partition_count (l : list CarrierEntry) :
  Forall (fun e =>
            entry_target_region e = "Middle East"%string \/
            entry_target_region e = "Indian Ocean"%string \/
            entry_target_region e = "East Asia/Western Pacific"%string \/
            entry_target_region e = "Other Operations"%string) l ->
  List.length l =
  (List.length (heading_for "Middle East" l)
   + List.length (heading_for "Indian Ocean" l)
   + List.length (heading_for "East Asia/Western Pacific" l)
   + List.length (heading_for "Other Operations" l))%nat.
Proof.
  induction 1 as [| e l He _ IH]; [reflexivity |].
  unfold heading_for in *. cbn [filter].
  destruct He as [E | [E | [E | E]]]; rewrite E; cbn; lia.
Qed.

(** X15.  With the configured regions, a report that is returned splits
    its carriers without loss: every carrier is counted in exactly one of the
    Middle East, Indian Ocean and East Asia lists or is classified
    "Other Operations"; its carrier list is the one of the map; and both
    files were written. *)
Theorem report_partition (key : option string)
    (session_get : string -> HttpOutcome) (now : string)
    (save_map dump_report : FileOutcome) :
  match generate_map_report (init key) session_get now save_map dump_report with
  | inr report =>
      create_carrier_map (init key) session_get now = inr (carriers report) /\
      List.length (carriers report) =
      (List.length (deployed_middle_east report)
       + List.length (deployed_indian_ocean report)
       + List.length (deployed_east_asia report)
       + List.length (heading_for "Other Operations" (carriers report)))%nat /\
      save_map = Written /\ dump_report = Written
  | inl _ => True
  end.
Proof.
  unfold generate_map_report. rewrite create_carrier_map_spec.
  destruct (existsb _ _); [exact I |].
  destruct save_map; [| exact I]. destruct dump_report; [| exact I].
  cbn [carriers deployed_middle_east deployed_indian_ocean deployed_east_asia].
  split; [reflexivity |]. split; [| split; reflexivity].
  apply partition_count.
  apply Forall_forall. intros e He. apply entries_of_In in He.
  destruct He as (n & m & [[p la] lo] & _ & _ & ->).
  cbn [entry_for entry_target_region].
  apply default_targets.
Qed.

(** * The keyword filter of [uss_tracker.py] *)

Lemma deployments_loop_filter lower ds acc :
  deployments_loop lower ds acc = acc ++ filter (mentions_middle_east lower) ds.
Proof.
  revert acc. induction ds as [| d rest IH]; intros acc.
  - cbn. rewrite app_nil_r. reflexivity.
  - cbn [deployments_loop filter].
    destruct (mentions_middle_east lower d); rewrite IH; [| reflexivity].
    rewrite <- app_assoc. reflexivity.
Qed.

Lemma check_filter lower ds :
  check_middle_east_deployments lower ds = filter (mentions_middle_east lower) ds.
Proof. unfold check_middle_east_deployments. apply deployments_loop_filter. Qed.

Lemma filter_idempotent {A : Type} (f : A -> bool) (l : list A) :
  filter f (filter f l) = filter f l.
Proof.
  induction l as [| a l IH]; [reflexivity |].
  cbn [filter]. destruct (f a) eqn:E; [| exact IH].
  cbn [filter]. rewrite E, IH. reflexivity.
Qed.

(** X17.  The Middle East filter composes: filtering a concatenation is
    concatenating the filtered parts, filtering twice is filtering once, and
    the result is never longer than the input.  This holds for any
    lower-casing function. *)
Theorem check_middle_east_composes (lower : string -> string)
    (a b : list (list (string * string))) :
  check_middle_east_deployments lower (a ++ b) =
    check_middle_east_deployments lower a ++ check_middle_east_deployments lower b /\
  check_middle_east_deployments lower (check_middle_east_deployments lower a) =
    check_middle_east_deployments lower a /\
  (List.length (check_middle_east_deployments lower a) <= List.length a)%nat.
Proof.
  rewrite !check_filter. split; [apply filter_app |].
  split; [apply filter_idempotent | apply filter_length_le].
Qed.

(** X18.  A deployment is in the filtered list exactly when it is in the
    input and one of the seven keywords occurs in its lower-cased status or
    its lower-cased region, a missing key counting as the empty string. *)
Theorem check_middle_east_selects (lower : string -> string)
    (deployments : list (list (string * string)))
    (d : list (string * string)) :
  In d (check_middle_east_deployments lower deployments) <->
  In d deployments /\
  exists keyword,
    In keyword middle_east_keywords /\
    (contains keyword (lower (get_or_empty d "status")) = true \/
     contains keyword (lower (get_or_empty d "region")) = true).
Proof.
  rewrite check_filter, filter_In. unfold mentions_middle_east.
  rewrite existsb_exists.
  split; intros [Hin (k & Hk & Hc)]; (split; [exact Hin |]); exists k;
    (split; [exact Hk |]).
  - apply Bool.orb_true_iff. exact Hc.
  - apply Bool.orb_true_iff. exact Hc.
Qed.

(** * Two consequences for the classifier *)

Lemma bearing_to_itself (p : GeoPoint) : initialBearing p p = 0.
Proof.
  rewrite initialBearing_components.
  replace (bearing_east p p) with 0
    by (unfold bearing_east; rewrite Rminus_diag, sin_0; ring).
  replace (bearing_north p p) with 0
    by (unfold bearing_north; rewrite Rminus_diag, cos_0; ring).
  rewrite atan2_origin, degrees_0. apply fmod_360_shift. lra.
Qed.

(** X19.  The classifier looks at the direction to the center, not at
    whether the vessel is inside the box: a vessel exactly at the center of a
    region, on a course in [0, 360), matches that region only when its
    course is within 45 degrees of north. *)
Theorem vessel_at_center (r : Region) (c s : R) :
  valid_course c ->
  (heads_toward (mkVessel (region_center (bounds r)) c s) 45 r <->
   c <= 45 \/ 315 <= c).
Proof.
  intros [lo hi]. unfold heads_toward. cbn [position course].
  rewrite bearing_to_itself. unfold circularDiff, Rmin.
  destruct (Rle_dec _ _); unfold Rabs in *; destruct (Rcase_abs _);
    split; intros H; lra.
Qed.

Lemma vessel_at_center_witness :
  heads_toward (mkVessel (region_center middle_east_box) 180 18.5) 45
    (mkRegion "Middle East" middle_east_box "red") <->
  180 <= 45 \/ 315 <= 180.
Proof.
  apply (vessel_at_center (mkRegion "Middle East" middle_east_box "red")
           180 18.5).
  unfold valid_course. lra.
Defined.

Lemma fmod_360_id x : 0 <= x < 360 -> Py.fmod x 360 = x.
Proof.
  intros H. replace x with ((x - 360) + 360) at 1 by ring.
  rewrite fmod_360_neg; lra.
Qed.

(** X20.  For a course in [0, 360), a region that matches the course does
    not match the reverse course [(course + 180) % 360]. *)
Theorem reverse_course_misses (p : GeoPoint) (c s : R) (r : Region) :
  valid_course c ->
  heads_toward (mkVessel p c s) 45 r ->
  ~ heads_toward (mkVessel p (Py.fmod (c + 180) 360) s) 45 r.
Proof.
  intros [lo hi]. unfold heads_toward. cbn [position course].
  set (b := initialBearing p (region_center (bounds r))).
  assert (Hb : 0 <= b < 360)
    by (unfold b; rewrite initialBearing_components; apply bearing_range).
  destruct Hb as [blo bhi].
  destruct (Rlt_dec c 180) as [small | large].
  - rewrite fmod_360_id by lra.
    unfold circularDiff, Rmin.
    repeat destruct (Rle_dec _ _); unfold Rabs in *;
      repeat destruct (Rcase_abs _); lra.
  - replace (c + 180) with ((c - 180) + 360) by ring.
    rewrite fmod_360_shift by lra.
    unfold circularDiff, Rmin.
    repeat destruct (Rle_dec _ _); unfold Rabs in *;
      repeat destruct (Rcase_abs _); lra.
Qed.

Lemma reverse_course_misses_witness :
  ~ heads_toward (mkVessel red_sea (Py.fmod (0 + 180) 360) 18.5) 45
      (mkRegion "Middle East" middle_east_box "red").
Proof.
  apply (reverse_course_misses red_sea 0 18.5
           (mkRegion "Middle East" middle_east_box "red")).
  - unfold valid_course. lra.
  - unfold heads_toward. cbn [position course bounds].
    apply circularDiff_course_0. exact middle_east_bearing.
Defined.
